(** * Data preparation, prompt formatting and label extraction of the
      crypto fine-tuning scripts

    A shallow embedding of [scripts/train_crypto_embeddings.py] and
    [scripts/train_regime_classifier.py].

    Text is a [string] whose characters are code points below 256; the
    built-in [str] methods the scripts call ([in], [split], [strip],
    [lower], [==]) are written out on that type in [PyStr].  Dictionaries
    are [gmap string _].  Everything the scripts obtain from outside (the
    file system, the JSON decoder, the model libraries, the sampled
    generation) is a field of the record [world]; the methods run in a
    small monad that threads the console/library trace and stops at the
    first exception. *)

From Stdlib Require Import Ascii String ZArith NArith Lia List Bool.
From stdpp Require Import base option list gmap strings pretty.


(** ** Python's [str] operations *)

Module PyStr.

(** The line feed, the character the f-string templates break lines with. *)
Definition LF : ascii := "010"%char.
Definition CR : ascii := "013"%char.
Definition nl : string := String LF EmptyString.

Definition code (c : ascii) : N := N_of_ascii c.

(** [str.isspace] on one code point below 256. *)
Definition isspace (c : ascii) : bool :=
  let n := code c in
  ((9 <=? n) && (n <=? 13) || (28 <=? n) && (n <=? 32)
   || (n =? 133) || (n =? 160))%N.

(** [str.lower] on one code point below 256: the letters A-Z and the
    capital letters of the Latin-1 block (all of 192..222 but the
    multiplication sign 215) move up by 32. *)
Definition lower_char (c : ascii) : ascii :=
  let n := code c in
  if ((65 <=? n) && (n <=? 90)
      || (192 <=? n) && (n <=? 222) && negb (n =? 215))%N
  then ascii_of_N (n + 32) else c.

Fixpoint lower (s : string) : string :=
  match s with
  | EmptyString => EmptyString
  | String c s' => String (lower_char c) (lower s')
  end.

Fixpoint lstrip (s : string) : string :=
  match s with
  | EmptyString => EmptyString
  | String c s' => if isspace c then lstrip s' else s
  end.

Fixpoint rstrip (s : string) : string :=
  match s with
  | EmptyString => EmptyString
  | String c s' =>
      match rstrip s' with
      | EmptyString => if isspace c then EmptyString else String c EmptyString
      | r => String c r
      end
  end.

(** [s.strip()] with no argument. *)
Definition strip (s : string) : string := rstrip (lstrip s).

(** Nothing but whitespace. *)
Fixpoint blank (s : string) : bool :=
  match s with
  | EmptyString => true
  | String c s' => isspace c && blank s'
  end.

(** [s.startswith(p)]. *)
Definition startswith (s p : string) : bool := String.prefix p s.

(** [needle in hay]. *)
Fixpoint contains (needle hay : string) : bool :=
  String.prefix needle hay ||
  match hay with
  | EmptyString => false
  | String _ hay' => contains needle hay'
  end.

(** [s.endswith(p)]. *)
Fixpoint endswith (s p : string) : bool :=
  String.eqb s p ||
  match s with
  | EmptyString => false
  | String _ s' => endswith s' p
  end.

(** [s.split(sep)] for a non-empty [sep]: scan from the left, cut at every
    match and resume after it.  [skip] counts the characters of the match
    under the cursor that are still to be passed over. *)
Fixpoint split_go (sep : string) (skip : nat) (s : string) : list string :=
  match s with
  | EmptyString => [EmptyString]
  | String c s' =>
      match skip with
      | S k => split_go sep k s'
      | O =>
          if String.prefix sep s
          then EmptyString :: split_go sep (String.length sep - 1) s'
          else match split_go sep O s' with
               | h :: t => String c h :: t
               | [] => [String c EmptyString]
               end
      end
  end.

Definition split (sep s : string) : list string := split_go sep 0 s.

(** [l[-1]] on the list a [split] returns (never empty). *)
Definition last_item (l : list string) : string := List.last l EmptyString.

(** Text-mode reading: [open(path, 'r')] translates the line endings
    CR LF and CR into LF. *)
Fixpoint universal_newlines (s : string) : string :=
  match s with
  | EmptyString => EmptyString
  | String c s' =>
      if Ascii.eqb c CR then
        match s' with
        | String c' s'' =>
            if Ascii.eqb c' LF then String LF (universal_newlines s'')
            else String LF (universal_newlines s')
        | EmptyString => String LF EmptyString
        end
      else String c (universal_newlines s')
  end.

(** [for line in f]: the lines of a text, each with its line feed; a last
    line without one is a line too. *)
Fixpoint readlines (s : string) : list string :=
  match s with
  | EmptyString => []
  | String c s' =>
      if Ascii.eqb c LF then String c EmptyString :: readlines s'
      else match readlines s' with
           | h :: t => String c h :: t
           | [] => [String c EmptyString]
           end
  end.

End PyStr.

(** ** Values, exceptions and the outside world *)

Set Warnings "-register-all".

(** What [json.load] and [json.loads] return.  A number written with a
    fraction or an exponent keeps its literal: the scripts never compute
    with it. *)
Inductive json :=
| JNull
| JBool (b : bool)
| JInt (n : Z)
| JFloat (lit : string)
| JStr (s : string)
| JList (l : list json)
| JDict (d : gmap string json).

(** Calls into the model libraries, with the arguments the scripts pass. *)
Inductive call :=
| SentenceTransformer_new (name : string)
| DataLoader_new (examples : nat) (batch_size : Z)
| TripletLoss_new
| SentenceTransformer_fit (epochs warmup_steps : Z) (output_path : string)
| AutoModelForCausalLM_from_pretrained (name : string)
| AutoTokenizer_from_pretrained (name : string)
| Dataset_from_dict (texts : list string)
| Dataset_map_tokenize
| TrainingArguments_new (output_dir : string) (epochs batch_size : Z)
| DataCollatorForLanguageModeling_new
| Trainer_new
| Trainer_train
| Model_save_pretrained (dir : string)
| Tokenizer_save_pretrained (dir : string)
| Tokenizer_call (prompt : string)
| Model_generate (prompt : string).

(** The exceptions that end a run. *)
Inductive exn :=
| FileNotFoundError (path : string)
| JSONDecodeError
| KeyError (key : string)
| TypeError
| LibraryError (c : call).

(** What a run leaves behind, in order: the lines it prints, the files it
    opens, the library calls it makes and the methods of the two classes it
    enters.  The mark the tester prints for a test ([Mark true] for the check
    mark, [Mark false] for the cross) has no code point below 256. *)
Inductive event :=
| Print (line : string)
| Mark (passed : bool)
| Open (path : string)
| Lib (c : call)
| Enter (method : string).

Record world := World {
  (** the readable files, by path *)
  files : gmap string string;
  (** [json.loads]: [None] when it raises [json.JSONDecodeError] *)
  json_loads : string -> option json;
  (** [str(v)] for a value [v] that is not text *)
  py_str : json -> string;
  (** whether a library call returns rather than raises *)
  lib_ok : call -> bool;
  (** the decoded output of the sampled generation for the [i]-th prompt *)
  generated : nat -> string -> string
}.

(** ** Results and the run monad *)

Inductive result (A : Type) :=
| Ok (a : A)
| Raise (e : exn).
Arguments Ok {A} a.
Arguments Raise {A} e.

#[global] Instance result_ret : MRet result := fun A a => Ok a.
#[global] Instance result_bind : MBind result := fun A B f r =>
  match r with
  | Ok a => f a
  | Raise e => Raise e
  end.

(** [mapM]: the first exception wins, as in a [for] loop that appends. *)
Fixpoint traverse {A B : Type} (f : A -> result B) (l : list A) : result (list B) :=
  match l with
  | [] => Ok []
  | x :: l' =>
      match f x with
      | Raise e => Raise e
      | Ok y =>
          match traverse f l' with
          | Raise e => Raise e
          | Ok ys => Ok (y :: ys)
          end
      end
  end.

Definition run (A : Type) : Type := list event -> list event * result A.

#[global] Instance run_ret : MRet run := fun A a log => (log, Ok a).
#[global] Instance run_bind : MBind run := fun A B f m log =>
  match m log with
  | (log', Ok a) => f a log'
  | (log', Raise e) => (log', Raise e)
  end.

Definition emit (e : event) : run unit := fun log => (log ++ [e], Ok tt).
Definition raise {A : Type} (e : exn) : run A := fun log => (log, Raise e).
Definition lift {A : Type} (r : result A) : run A := fun log => (log, r).
Definition print (line : string) : run unit := emit (Print line).

(** A library call is recorded, then returns or raises. *)
Definition lib (w : world) (c : call) : run unit := fun log =>
  (log ++ [Lib c], if lib_ok w c then Ok tt else Raise (LibraryError c)).

(** [open(path, 'r')] followed by reading the whole text. *)
Definition open_read (w : world) (path : string) : run string := fun log =>
  (log ++ [Open path],
   match files w !! path with
   | Some text => Ok (PyStr.universal_newlines text)
   | None => Raise (FileNotFoundError path)
   end).

(** Unfold the steps of a run. *)
Ltac run_steps :=
  unfold mbind, run_bind, mret, run_ret, emit, print, lib; simpl.

(** ** Dynamic typing: subscripting, iterating, interpolating *)

(** [v[key]] for a text key. *)
Definition getitem (v : json) (key : string) : result json :=
  match v with
  | JDict d =>
      match d !! key with
      | Some x => Ok x
      | None => Raise (KeyError key)
      end
  | _ => Raise TypeError
  end.

Fixpoint chars (s : string) : list json :=
  match s with
  | EmptyString => []
  | String c s' => JStr (String c EmptyString) :: chars s'
  end.

(** [for item in v]: a list gives its elements, a dictionary its keys, a
    text its characters; nothing else can be iterated. *)
Definition py_iter (v : json) : result (list json) :=
  match v with
  | JList l => Ok l
  | JDict d => Ok (JStr <$> (map_to_list d).*1)
  | JStr s => Ok (chars s)
  | _ => Raise TypeError
  end.

(** [f"{v}"]: a text is interpolated as it is. *)
Definition interpolate (w : world) (v : json) : string :=
  match v with
  | JStr s => s
  | _ => py_str w v
  end.

(** ** [train_crypto_embeddings.py]: class [CryptoEmbeddingTrainer] *)

Module Embedding.

Record trainer := Trainer {
  base_model : string;
  output_dir : string;
  model : option string
}.

(** [__init__] with its default arguments. *)
Definition init : trainer :=
  Trainer "all-MiniLM-L6-v2" "./models/crypto-embeddings-v1" None.

Definition default_path : string := "./training-data/embeddings/crypto_pairs.json".

(** [sentence_transformers.InputExample(texts=...)]: the constructor keeps
    its arguments; [guid] and [label] take their defaults. *)
Record InputExample := Example {
  guid : string;
  texts : list json;
  label : Z
}.

Definition load_training_data (w : world) (filepath : string) : run json :=
  emit (Enter "load_training_data");;
  text ← open_read w filepath;
  match json_loads w text with
  | Some data => mret data
  | None => raise JSONDecodeError
  end.

(** The body of the loop of [prepare_examples]. *)
Definition make_example (item : json) : result InputExample :=
  anchor ← getitem item "anchor";
  positive ← getitem item "positive";
  negative ← getitem item "negative";
  mret (Example EmptyString [anchor; positive; negative] 0).

Definition prepare_examples (data : json) : run (list InputExample) :=
  emit (Enter "prepare_examples");;
  examples ← lift (items ← py_iter data; traverse make_example items);
  print ("Prepared " +:+ pretty (length examples) +:+ " training examples");;
  mret examples.

Definition train (w : world) (self : trainer)
    (training_data_path : string) (epochs batch_size warmup_steps : Z)
    : run trainer :=
  emit (Enter "train");;
  print ("Loading base model: " +:+ base_model self);;
  lib w (SentenceTransformer_new (base_model self));;
  let self := Trainer (base_model self) (output_dir self) (Some (base_model self)) in
  data ← load_training_data w training_data_path;
  train_examples ← prepare_examples data;
  lib w (DataLoader_new (length train_examples) batch_size);;
  lib w TripletLoss_new;;
  print ("Starting training for " +:+ pretty epochs +:+ " epochs...");;
  lib w (SentenceTransformer_fit epochs warmup_steps (output_dir self));;
  print ("Training complete! Model saved to " +:+ output_dir self);;
  mret self.

End Embedding.

(** ** [train_regime_classifier.py]: class [RegimeClassifierTrainer] *)

Module Regime.

Import PyStr.

Record trainer := Trainer {
  model_name : string;
  output_dir : string;
  model : option string;
  tokenizer : option string
}.

Definition init : trainer :=
  Trainer "mistralai/Mistral-7B-Instruct-v0.2" "./models/regime-classifier-v1"
          None None.

Definition default_path : string := "./training-data/regime/regime_training.jsonl".

Definition decode_line (w : world) (line : string) : result json :=
  match json_loads w line with
  | Some v => Ok v
  | None => Raise JSONDecodeError
  end.

Definition load_training_data (w : world) (filepath : string) : run (list json) :=
  emit (Enter "load_training_data");;
  text ← open_read w filepath;
  data ← lift (traverse (decode_line w) (readlines text));
  print ("Loaded " +:+ pretty (length data) +:+ " training examples");;
  mret data.

(** The directive that closes the instruction block of both templates. *)
Definition directive : string :=
  "Classify the market regime as one of: bull, bear, sideways, or high-volatility".

(** The f-string of [format_prompt]; its three fields are read from left
    to right. *)
Definition format_prompt (w : world) (example : json) : result string :=
  instruction ← getitem example "instruction";
  input ← getitem example "input";
  output ← getitem example "output";
  mret ("<s>[INST] " +:+ interpolate w instruction +:+ nl +:+ nl +:+
        interpolate w input +:+ nl +:+ nl +:+
        directive +:+ " [/INST] " +:+ interpolate w output +:+ "</s>").

Definition format_prompt_call (w : world) (example : json) : run string :=
  emit (Enter "format_prompt");;
  lift (format_prompt w example).

(** The list comprehension of [prepare_dataset]. *)
Fixpoint format_all (w : world) (data : list json) : run (list string) :=
  match data with
  | [] => mret []
  | ex :: data' =>
      text ← format_prompt_call w ex;
      texts ← format_all w data';
      mret (text :: texts)
  end.

Definition prepare_dataset (w : world) (data : list json) : run (list string) :=
  emit (Enter "prepare_dataset");;
  formatted_data ← format_all w data;
  lib w (Dataset_from_dict formatted_data);;
  mret formatted_data.

Definition tokenize_dataset (w : world) : run unit :=
  emit (Enter "tokenize_dataset");;
  lib w Dataset_map_tokenize.

(** [train]; the learning rate, a float handed to [TrainingArguments]
    untouched, is left out. *)
Definition train (w : world) (self : trainer)
    (training_data_path : string) (epochs batch_size : Z) : run trainer :=
  emit (Enter "train");;
  print ("Loading model: " +:+ model_name self);;
  lib w (AutoModelForCausalLM_from_pretrained (model_name self));;
  lib w (AutoTokenizer_from_pretrained (model_name self));;
  let self := Trainer (model_name self) (output_dir self)
                      (Some (model_name self)) (Some (model_name self)) in
  data ← load_training_data w training_data_path;
  dataset ← prepare_dataset w data;
  tokenize_dataset w;;
  lib w (TrainingArguments_new (output_dir self) epochs batch_size);;
  lib w DataCollatorForLanguageModeling_new;;
  lib w Trainer_new;;
  print "Starting training...";;
  lib w Trainer_train;;
  print ("Saving model to " +:+ output_dir self);;
  lib w (Model_save_pretrained (output_dir self));;
  lib w (Tokenizer_save_pretrained (output_dir self));;
  print "Training complete!";;
  mret self.

(** *** The tester *)

Record test_case := TestCase { input : string; expected : string }.

Definition block (lines : list string) : string := String.concat nl lines.

Definition test_cases : list test_case :=
  [ TestCase (block [ "Price: $48,230.00";
                      "30-day change: 15.30%";
                      "Volatility (30d): 2.80%";
                      "RSI: 68.5";
                      "Volume trend: increasing";
                      "Price position: 85.2% of 30-day range";
                      "MACD signal: bullish" ]) "bull";
    TestCase (block [ "Price: $42,100.00";
                      "30-day change: -12.50%";
                      "Volatility (30d): 3.20%";
                      "RSI: 32.1";
                      "Volume trend: decreasing";
                      "Price position: 15.8% of 30-day range";
                      "MACD signal: bearish" ]) "bear";
    TestCase (block [ "Price: $45,000.00";
                      "30-day change: -2.10%";
                      "Volatility (30d): 1.50%";
                      "RSI: 51.0";
                      "Volume trend: stable";
                      "Price position: 48.5% of 30-day range";
                      "MACD signal: neutral" ]) "sideways" ].

(** The instruction the tester writes into its prompts. *)
Definition test_instruction : string :=
  "Analyze market conditions and classify regime:".

(** The f-string of the loop of [test_classifier]. *)
Definition test_prompt (test : test_case) : string :=
  "<s>[INST] " +:+ test_instruction +:+ nl +:+ nl +:+
  input test +:+ nl +:+ nl +:+
  directive +:+ " [/INST]".

Definition delimiter : string := "[/INST]".

(** [result.split("[/INST]")[-1].strip().lower()] *)
Definition raw_prediction (result : string) : string :=
  lower (strip (last_item (split delimiter result))).

Definition regimes : list string := ["bull"; "bear"; "sideways"; "high-volatility"].

(** The [for regime in ...] loop with its [break]. *)
Fixpoint scan (labels : list string) (prediction : string) : string :=
  match labels with
  | [] => prediction
  | regime :: labels' =>
      if contains regime prediction then regime else scan labels' prediction
  end.

Definition extract_label (prediction : string) : string := scan regimes prediction.

(** The prediction printed for a decoded generation. *)
Definition predict (result : string) : string := extract_label (raw_prediction result).

(** [prediction == test['expected']] *)
Definition passed (prediction expected : string) : bool := String.eqb prediction expected.

Definition run_test (w : world) (i : nat) (test : test_case) : run unit :=
  let prompt := test_prompt test in
  lib w (Tokenizer_call prompt);;
  lib w (Model_generate prompt);;
  let result := generated w i prompt in
  let prediction := predict result in
  print ("Test " +:+ pretty (i + 1) +:+ ":");;
  print ("  Expected: " +:+ expected test);;
  print ("  Predicted: " +:+ prediction);;
  emit (Mark (passed prediction (expected test)));;
  print EmptyString.

Fixpoint run_tests (w : world) (i : nat) (tests : list test_case) : run unit :=
  match tests with
  | [] => mret tt
  | test :: tests' => run_test w i test;; run_tests w (S i) tests'
  end.

Definition test_classifier (w : world) (self : trainer) : run trainer :=
  emit (Enter "test_classifier");;
  self ← match model self with
         | None =>
             print "Loading trained model...";;
             lib w (AutoModelForCausalLM_from_pretrained (output_dir self));;
             lib w (AutoTokenizer_from_pretrained (output_dir self));;
             mret (Trainer (model_name self) (output_dir self)
                           (Some (output_dir self)) (Some (output_dir self)))
         | Some _ => mret self
         end;
  print (nl +:+ "=== Testing Regime Classifier ===" +:+ nl);;
  run_tests w 0 test_cases;;
  mret self.

End Regime.

(** ** A JSON decoder to run the scripts on concrete files

    The theorems below hold for every [world], whatever its decoder.  To
    evaluate the scripts on concrete texts, [Json.loads] decodes JSON the way
    [json.loads] does: the same grammar, duplicate keys resolved to the last,
    control characters refused inside strings, surrounding blanks accepted.
    A [\u] escape denoting a code point above 255 is outside the character
    model and refused. *)

Module Json.

Definition quote : ascii := "034"%char.
Definition backslash : ascii := "092"%char.

Definition is_ws (c : ascii) : bool :=
  match c with
  | " " | "009" | "010" | "013" => true
  | _ => false
  end%char.

Fixpoint skip_ws (s : string) : string :=
  match s with
  | String c s' => if is_ws c then skip_ws s' else s
  | EmptyString => EmptyString
  end.

Fixpoint drop (n : nat) (s : string) : string :=
  match n, s with
  | S n', String _ s' => drop n' s'
  | _, _ => s
  end.

(** Pass over the literal [lit] at the head of [s]. *)
Definition eat (lit s : string) : option string :=
  if String.prefix lit s then Some (drop (String.length lit) s) else None.

Definition digit (c : ascii) : option Z :=
  let n := N_of_ascii c in
  if ((48 <=? n) && (n <=? 57))%N then Some (Z.of_N n - 48)%Z else None.

Definition hex (c : ascii) : option N :=
  let n := N_of_ascii c in
  if ((48 <=? n) && (n <=? 57))%N then Some (n - 48)%N
  else if ((65 <=? n) && (n <=? 70))%N then Some (n - 55)%N
  else if ((97 <=? n) && (n <=? 102))%N then Some (n - 87)%N
  else None.

(** The longest run of digits at the head of [s], and what follows it. *)
Fixpoint digits (s : string) : string * string :=
  match s with
  | String c s' =>
      match digit c with
      | Some _ => let '(ds, rest) := digits s' in (String c ds, rest)
      | None => (EmptyString, s)
      end
  | EmptyString => (EmptyString, EmptyString)
  end.

Fixpoint to_Z (acc : Z) (ds : string) : Z :=
  match ds with
  | String c ds' => to_Z (10 * acc + default 0 (digit c))%Z ds'
  | EmptyString => acc
  end.

(** The integer part: a lone [0], or a run of digits that starts with 1-9. *)
Definition int_part (s : string) : option (string * string) :=
  match s with
  | String "0" s' => Some ("0", s')
  | _ => match digits s with
         | (EmptyString, _) => None
         | r => Some r
         end
  end.

(** An optional fraction: a dot and at least one digit. *)
Definition frac_part (s : string) : string * string :=
  match s with
  | String "." s' =>
      match digits s' with
      | (EmptyString, _) => (EmptyString, s)
      | (ds, rest) => (String "." ds, rest)
      end
  | _ => (EmptyString, s)
  end.

(** An optional exponent: e or E, an optional sign, at least one digit. *)
Definition exp_part (s : string) : string * string :=
  match s with
  | String e s' =>
      if (Ascii.eqb e "e" || Ascii.eqb e "E")%char then
        let '(sign, s'') :=
          match s' with
          | String "+" t => ("+", t)
          | String "-" t => ("-", t)
          | _ => (EmptyString, s')
          end in
        match digits s'' with
        | (EmptyString, _) => (EmptyString, s)
        | (ds, rest) => (String e (sign +:+ ds), rest)
        end
      else (EmptyString, s)
  | EmptyString => (EmptyString, s)
  end.

Definition number (s : string) : option (json * string) :=
  let '(neg, s1) := match s with
                    | String "-" t => (true, t)
                    | _ => (false, s)
                    end in
  '(ip, s2) ← int_part s1;
  let '(fp, s3) := frac_part s2 in
  let '(ep, s4) := exp_part s3 in
  match fp, ep with
  | EmptyString, EmptyString =>
      Some (JInt (if neg then - to_Z 0 ip else to_Z 0 ip)%Z, s4)
  | _, _ => Some (JFloat ((if neg then "-" else EmptyString) +:+ ip +:+ fp +:+ ep), s4)
  end.

(** The body of a string, after its opening quote. *)
Fixpoint str_body (s : string) : option (string * string) :=
  match s with
  | EmptyString => None
  | String c s' =>
      if Ascii.eqb c quote then Some (EmptyString, s')
      else if Ascii.eqb c backslash then
        match s' with
        | String e s'' =>
            let plain (c' : ascii) :=
              '(r, rest) ← str_body s''; Some (String c' r, rest) in
            if Ascii.eqb e quote then plain quote
            else if Ascii.eqb e backslash then plain backslash
            else match e with
                 | "/" => plain "/"
                 | "b" => plain "008"
                 | "f" => plain "012"
                 | "n" => plain "010"
                 | "r" => plain "013"
                 | "t" => plain "009"
                 | "u" =>
                     match s'' with
                     | String h1 (String h2 (String h3 (String h4 s3))) =>
                         a ← hex h1; b ← hex h2; c ← hex h3; d ← hex h4;
                         let n := (((a * 16 + b) * 16 + c) * 16 + d)%N in
                         if (n <? 256)%N then
                           '(r, rest) ← str_body s3;
                           Some (String (ascii_of_N n) r, rest)
                         else None
                     | _ => None
                     end
                 | _ => None
                 end%char
        | EmptyString => None
        end
      else if (N_of_ascii c <? 32)%N then None
      else '(r, rest) ← str_body s'; Some (String c r, rest)
  end.

(** One value at the head of [s] (no blanks before it), the elements of an
    array after its bracket and the members of an object after its brace. *)
Fixpoint value (fuel : nat) (s : string) : option (json * string) :=
  match fuel with
  | O => None
  | S fuel' =>
      match s with
      | String "{" s' =>
          match skip_ws s' with
          | String "}" rest => Some (JDict ∅, rest)
          | s'' => '(d, rest) ← members fuel' ∅ s''; Some (JDict d, rest)
          end
      | String "[" s' =>
          match skip_ws s' with
          | String "]" rest => Some (JList [], rest)
          | s'' => '(l, rest) ← elements fuel' s''; Some (JList l, rest)
          end
      | String "n" _ => rest ← eat "null" s; Some (JNull, rest)
      | String "t" _ => rest ← eat "true" s; Some (JBool true, rest)
      | String "f" _ => rest ← eat "false" s; Some (JBool false, rest)
      | String "N" _ => rest ← eat "NaN" s; Some (JFloat "NaN", rest)
      | String "I" _ => rest ← eat "Infinity" s; Some (JFloat "Infinity", rest)
      | String "-" (String "I" _) =>
          rest ← eat "-Infinity" s; Some (JFloat "-Infinity", rest)
      | String c s' =>
          if Ascii.eqb c quote
          then '(t, rest) ← str_body s'; Some (JStr t, rest)
          else number s
      | EmptyString => None
      end%char
  end
with elements (fuel : nat) (s : string) : option (list json * string) :=
  match fuel with
  | O => None
  | S fuel' =>
      '(v, rest) ← value fuel' s;
      match skip_ws rest with
      | String "," rest' =>
          '(vs, rest'') ← elements fuel' (skip_ws rest'); Some (v :: vs, rest'')
      | String "]" rest' => Some ([v], rest')
      | _ => None
      end%char
  end
with members (fuel : nat) (acc : gmap string json) (s : string)
    : option (gmap string json * string) :=
  match fuel with
  | O => None
  | S fuel' =>
      match s with
      | String c s' =>
          if Ascii.eqb c quote then
            '(k, rest) ← str_body s';
            match skip_ws rest with
            | String ":" rest' =>
                '(v, rest'') ← value fuel' (skip_ws rest');
                let acc' := <[k := v]> acc in
                match skip_ws rest'' with
                | String "," rest3 => members fuel' acc' (skip_ws rest3)
                | String "}" rest3 => Some (acc', rest3)
                | _ => None
                end
            | _ => None
            end%char
          else None
      | EmptyString => None
      end
  end.

(** [json.loads]: one value with blanks around it and nothing else. *)
Definition loads (s : string) : option json :=
  '(v, rest) ← value (2 * String.length s + 2) (skip_ws s);
  match skip_ws rest with
  | EmptyString => Some v
  | _ => None
  end.

(** To write JSON texts inside this file: every apostrophe stands for a
    double quote. *)
Fixpoint q (s : string) : string :=
  match s with
  | String c s' => String (if Ascii.eqb c "'"%char then quote else c) (q s')
  | EmptyString => EmptyString
  end.

End Json.

(** ** Concrete inputs: the end-to-end scenarios *)

Module Scenario.

Import PyStr.

Definition embedding_text : string :=
  Json.q "[{'anchor':'BTC surge','positive':'Bitcoin rally','negative':'ETH crash'}]".

Definition embedding_record : json :=
  JDict {[ "anchor" := JStr "BTC surge";
           "positive" := JStr "Bitcoin rally";
           "negative" := JStr "ETH crash" ]}.

Definition regime_line : string :=
  Json.q "{'instruction':'Classify','input':'RSI: 70','output':'bull'}".

Definition regime_record : json :=
  JDict {[ "instruction" := JStr "Classify";
           "input" := JStr "RSI: 70";
           "output" := JStr "bull" ]}.

Definition second_line : string :=
  Json.q "{'instruction':'Classify','input':'RSI: 30','output':'bear'}".

(** A line cut short: not JSON. *)
Definition malformed_line : string :=
  Json.q "{'instruction':'Classify','input':".

Definition pairs_path : string := "pairs.json".
Definition regime_path : string := "regime.jsonl".
Definition broken_path : string := "broken.jsonl".
Definition missing_path : string := "nowhere.jsonl".

(** [str] of the values without structure; the scenario files hold nothing
    but text. *)
Definition str_atom (v : json) : string :=
  match v with
  | JNull => "None"
  | JBool true => "True"
  | JBool false => "False"
  | JInt n => pretty n
  | JFloat lit => lit
  | JStr s => s
  | JList _ | JDict _ => EmptyString
  end.

(** A world with three files, a library that never fails and a model that
    repeats its prompt and answers in capitals. *)
Definition demo : world :=
  World {[ pairs_path := embedding_text;
           regime_path := regime_line +:+ nl +:+ second_line +:+ nl;
           broken_path := regime_line +:+ nl +:+ malformed_line +:+ nl
                          +:+ second_line +:+ nl ]}
        Json.loads str_atom (fun _ => true)
        (fun _ prompt => prompt +:+ " BULL, no longer bear" +:+ nl).

End Scenario.

(** ** Notions the claims are stated with *)

(** [t] is what follows the last delimiter of [result]: all of [result] when
    it has none. *)
Definition after_last_delimiter (result t : string) : Prop :=
  (PyStr.contains Regime.delimiter result = false /\ t = result) \/
  (exists before, result = before +:+ Regime.delimiter +:+ t /\
                  PyStr.contains Regime.delimiter t = false).

(** A prompt with what follows its closing delimiter left out: the text up
    to and including the last delimiter. *)
Definition upto_closing_delimiter (prompt : string) : string :=
  String.substring 0
    (String.length prompt -
     String.length (PyStr.last_item (PyStr.split Regime.delimiter prompt)))
    prompt.

(** The events of formatting and of training: entering a formatter, and
    every library call but the loading of a model or of its tokenizer. *)
Definition formats_or_trains (e : event) : bool :=
  match e with
  | Enter m =>
      bool_decide (m ∈ ["prepare_examples"; "prepare_dataset"; "format_prompt";
                        "tokenize_dataset"])
  | Lib (SentenceTransformer_new _)
  | Lib (AutoModelForCausalLM_from_pretrained _)
  | Lib (AutoTokenizer_from_pretrained _) => false
  | Lib _ => true
  | Print _ | Mark _ | Open _ => false
  end.

(** An embedding record: a dictionary with the three fields. *)
Definition has_triple (item a p n : json) : Prop :=
  exists d, item = JDict d /\
            d !! "anchor" = Some a /\ d !! "positive" = Some p /\
            d !! "negative" = Some n.

(** ** The rest of the scripts *)

(** The library calls of a trace, in order, and the marks of the tester. *)
Definition lib_calls (trace : list event) : list call :=
  omap (fun ev => match ev with Lib c => Some c | _ => None end) trace.

Definition marks (trace : list event) : list bool :=
  omap (fun ev => match ev with Mark b => Some b | _ => None end) trace.

(** The library calls [CryptoEmbeddingTrainer.train] makes when nothing
    stops it, for [examples] prepared examples. *)
Definition embedding_calls (self : Embedding.trainer) (examples : nat)
    (epochs batch_size warmup_steps : Z) : list call :=
  [ SentenceTransformer_new (Embedding.base_model self);
    DataLoader_new examples batch_size;
    TripletLoss_new;
    SentenceTransformer_fit epochs warmup_steps (Embedding.output_dir self) ].

(** The library calls [RegimeClassifierTrainer.train] makes when nothing
    stops it, for the rendered prompts [texts]. *)
Definition regime_calls (self : Regime.trainer) (texts : list string)
    (epochs batch_size : Z) : list call :=
  [ AutoModelForCausalLM_from_pretrained (Regime.model_name self);
    AutoTokenizer_from_pretrained (Regime.model_name self);
    Dataset_from_dict texts;
    Dataset_map_tokenize;
    TrainingArguments_new (Regime.output_dir self) epochs batch_size;
    DataCollatorForLanguageModeling_new;
    Trainer_new;
    Trainer_train;
    Model_save_pretrained (Regime.output_dir self);
    Tokenizer_save_pretrained (Regime.output_dir self) ].

Module RegimeScript.

(** The [__main__] block of [train_regime_classifier.py]: train, then
    test with the same object. *)
Definition main (w : world) : run Regime.trainer :=
  trainer ← Regime.train w Regime.init
              "./training-data/regime/regime_training.jsonl" 3 2;
  Regime.test_classifier w trainer.

End RegimeScript.

Module EmbeddingTest.

Import PyStr.

Definition test_sentences : list string :=
  [ "BTCUSDT bullish breakout with high volume";
    "Bitcoin USD showing strong upward momentum";
    "ETHUSDT bearish consolidation pattern";
    "RSI oversold on 4h chart";
    "4-hour RSI below 30 indicating oversold";
    "MACD bullish crossover signal" ].

(** [f"\n{i}: {sent[:50]}..."] *)
Definition header (i : nat) (sent : string) : string :=
  nl +:+ pretty i +:+ ": " +:+ String.substring 0 50 sent +:+ "...".

(** [f"  vs {j}: {similarity_matrix[i][j]:.3f}"]; [entry i j] is the entry
    of the matrix as the format prints it. *)
Definition versus (entry : nat -> nat -> string) (i j : nat) : string :=
  "  vs " +:+ pretty j +:+ ": " +:+ entry i j.

(** The inner loop: [for j in range(n): if i != j: print(...)]. *)
Fixpoint row (entry : nat -> nat -> string) (i : nat) (js : list nat) : list string :=
  match js with
  | [] => []
  | j :: js' =>
      if Nat.eqb i j then row entry i js'
      else versus entry i j :: row entry i js'
  end.

(** The outer loop: [for i, sent in enumerate(test_sentences)]. *)
Fixpoint rows (entry : nat -> nat -> string) (n i : nat) (sentences : list string)
    : list string :=
  match sentences with
  | [] => []
  | sent :: rest =>
      header i sent :: row entry i (seq 0 n) ++ rows entry n (S i) rest
  end.

(** The lines [test_embeddings] prints once the sentences are encoded and
    the similarity matrix is there; [shape] is [str(embeddings.shape)]. *)
Definition report (shape : string) (entry : nat -> nat -> string)
    (sentences : list string) : list string :=
  [ nl +:+ "Test Embeddings Shape: " +:+ shape; nl +:+ "Similarity Matrix:" ]
  ++ rows entry (length sentences) 0 sentences.

End EmbeddingTest.

(** ** Text lemmas *)

Section Text.

Import PyStr.

Lemma append_cons c (s t : string) : String c s +:+ t = String c (s +:+ t).
Proof. reflexivity. Qed.

Lemma append_nil_l (s : string) : EmptyString +:+ s = s.
Proof. reflexivity. Qed.

Lemma append_nil_r (s : string) : s +:+ EmptyString = s.
Proof. induction s as [|c s IH]; [reflexivity|]. rewrite append_cons, IH. reflexivity. Qed.

Lemma append_assoc (s t u : string) : (s +:+ t) +:+ u = s +:+ (t +:+ u).
Proof.
  induction s as [|c s IH]; [reflexivity|].
  rewrite !append_cons, IH. reflexivity.
Qed.

Lemma length_append (s t : string) :
  String.length (s +:+ t) = String.length s + String.length t.
Proof.
  induction s as [|c s IH]; [reflexivity|].
  rewrite append_cons. simpl. rewrite IH. reflexivity.
Qed.

Lemma prefix_cons c d (p s : string) :
  String.prefix (String c p) (String d s) = true <-> c = d /\ String.prefix p s = true.
Proof.
  simpl. destruct (ascii_dec c d) as [->|Hne]; split.
  - intros H; split; [reflexivity|exact H].
  - intros [_ H]; exact H.
  - discriminate.
  - intros [H _]; contradiction.
Qed.

Lemma prefix_nil (s : string) : String.prefix EmptyString s = true.
Proof. destruct s; reflexivity. Qed.

Lemma prefix_app (p s : string) : String.prefix p (p +:+ s) = true.
Proof.
  induction p as [|c p IH]; [apply prefix_nil|].
  rewrite append_cons. apply prefix_cons. split; [reflexivity|exact IH].
Qed.

Lemma prefix_inv (p s : string) :
  String.prefix p s = true -> exists r, s = p +:+ r.
Proof.
  revert s. induction p as [|c p IH]; intros s H.
  - exists s. reflexivity.
  - destruct s as [|d s]; [discriminate|].
    apply prefix_cons in H as [-> H].
    destruct (IH _ H) as [r ->]. exists r. reflexivity.
Qed.

Lemma contains_cons needle c (hay : string) :
  contains needle (String c hay) =
  String.prefix needle (String c hay) || contains needle hay.
Proof. reflexivity. Qed.

(** [needle in hay] holds exactly when [hay] is some text, [needle], some
    text. *)
Lemma contains_intro (needle a b : string) :
  contains needle (a +:+ needle +:+ b) = true.
Proof.
  induction a as [|c a IH].
  - rewrite append_nil_l. destruct needle as [|c needle].
    + rewrite append_nil_l. destruct b; reflexivity.
    + rewrite append_cons, contains_cons, <- append_cons, prefix_app. reflexivity.
  - rewrite append_cons, contains_cons, IH. apply orb_true_r.
Qed.

Lemma contains_elim (needle hay : string) :
  contains needle hay = true -> exists a b, hay = a +:+ needle +:+ b.
Proof.
  induction hay as [|c hay IH]; intros H.
  - destruct needle; [|discriminate].
    exists EmptyString, EmptyString. reflexivity.
  - rewrite contains_cons in H. apply orb_true_iff in H as [H|H].
    + apply prefix_inv in H as [r Hr]. exists EmptyString, r. exact Hr.
    + destruct (IH H) as (a & b & ->). exists (String c a), b. reflexivity.
Qed.

Lemma contains_app_r (needle a hay : string) :
  contains needle hay = true -> contains needle (a +:+ hay) = true.
Proof.
  intros H. apply contains_elim in H as (x & y & ->).
  rewrite <- append_assoc. apply contains_intro.
Qed.

Lemma contains_app_l (needle hay b : string) :
  contains needle hay = true -> contains needle (hay +:+ b) = true.
Proof.
  intros H. apply contains_elim in H as (x & y & ->).
  rewrite !append_assoc. apply contains_intro.
Qed.

Lemma endswith_cons c (s p : string) :
  endswith (String c s) p = String.eqb (String c s) p || endswith s p.
Proof. reflexivity. Qed.

Lemma endswith_intro (a p : string) : endswith (a +:+ p) p = true.
Proof.
  induction a as [|c a IH].
  - rewrite append_nil_l. destruct p; [reflexivity|].
    rewrite endswith_cons, String.eqb_refl. reflexivity.
  - rewrite append_cons, endswith_cons, IH. apply orb_true_r.
Qed.

Lemma endswith_elim (s p : string) :
  endswith s p = true -> exists a, s = a +:+ p.
Proof.
  induction s as [|c s IH]; intros H.
  - destruct p; [|discriminate]. exists EmptyString. reflexivity.
  - rewrite endswith_cons in H. apply orb_true_iff in H as [H|H].
    + apply String.eqb_eq in H as <-. exists EmptyString. reflexivity.
    + destruct (IH H) as [a ->]. exists (String c a). reflexivity.
Qed.

End Text.

(** ** [split] and the closing delimiter *)

Section Split.

Import PyStr.

Lemma split_go_skip sep k c (s : string) :
  split_go sep (S k) (String c s) = split_go sep k s.
Proof. reflexivity. Qed.

Lemma split_go_scan sep c (s : string) :
  split_go sep 0 (String c s) =
  if String.prefix sep (String c s)
  then EmptyString :: split_go sep (String.length sep - 1) s
  else match split_go sep 0 s with
       | h :: t => String c h :: t
       | [] => [String c EmptyString]
       end.
Proof. reflexivity. Qed.

(** A text without the separator is returned whole. *)
Lemma split_without sep (s : string) :
  contains sep s = false -> split sep s = [s].
Proof.
  unfold split. induction s as [|c s IH]; intros H; [reflexivity|].
  rewrite contains_cons in H. apply orb_false_iff in H as [Hp Hc].
  rewrite split_go_scan, Hp, (IH Hc). reflexivity.
Qed.

(** No match of the delimiter starts less than seven characters before
    another one: the bracket that opens it occurs nowhere else in it. *)
Lemma delimiter_apart c (pre t : string) :
  String.prefix Regime.delimiter (String c (pre +:+ Regime.delimiter +:+ t)) = true ->
  6 <= String.length pre.
Proof.
  unfold Regime.delimiter. intros H.
  destruct pre as [|c1 [|c2 [|c3 [|c4 [|c5 [|c6 pre]]]]]];
    try (simpl; lia);
    rewrite ?append_cons, ?append_nil_l in H;
    repeat match type of H with
           | String.prefix (String _ _) (String _ _) = true =>
               let E := fresh "E" in
               apply prefix_cons in H as [E H]; try discriminate E
           end.
Qed.

(** After the last delimiter comes the last segment. *)
Lemma split_go_last (pre t : string) :
  contains Regime.delimiter t = false ->
  forall k, k <= String.length pre ->
  exists init, init <> [] /\
    split_go Regime.delimiter k (pre +:+ Regime.delimiter +:+ t) = init ++ [t].
Proof.
  intros Ht. induction pre as [|c pre IH]; intros k Hk.
  - simpl in Hk. assert (k = 0) as -> by lia.
    exists [EmptyString]. split; [discriminate|].
    rewrite append_nil_l. unfold Regime.delimiter at 2. rewrite !append_cons, append_nil_l.
    rewrite split_go_scan.
    change (String "[" (String "/" (String "I" (String "N" (String "S"
             (String "T" (String "]" t)))))))
      with (Regime.delimiter +:+ t) at 1.
    rewrite prefix_app. simpl String.length. simpl Nat.sub.
    rewrite !split_go_skip. fold (split Regime.delimiter t).
    rewrite (split_without _ _ Ht). reflexivity.
  - rewrite append_cons. destruct k as [|k].
    + rewrite split_go_scan.
      destruct (String.prefix _ _) eqn:Hp.
      * apply delimiter_apart in Hp.
        destruct (IH (String.length Regime.delimiter - 1)) as (init & Hne & ->);
          [simpl; lia|].
        exists (EmptyString :: init). split; [discriminate|reflexivity].
      * destruct (IH 0) as (init & Hne & ->); [lia|].
        destruct init as [|h init]; [contradiction|].
        exists (String c h :: init). split; [discriminate|reflexivity].
    + rewrite split_go_skip. apply IH. simpl in Hk. lia.
Qed.

(** [result.split("[/INST]")[-1]] is what follows the last delimiter. *)
Lemma last_segment (result t : string) :
  after_last_delimiter result t ->
  last_item (split Regime.delimiter result) = t.
Proof.
  intros [[Hno ->]|(before & -> & Ht)].
  - rewrite (split_without _ _ Hno). reflexivity.
  - destruct (split_go_last before t Ht 0) as (init & _ & E); [lia|].
    unfold split. rewrite E. unfold last_item. apply last_last.
Qed.

(** Every text has a part after its last delimiter. *)
Lemma after_last_delimiter_exists (result : string) :
  exists t, after_last_delimiter result t.
Proof.
  induction result as [|c s [t [[Hno ->]|(before & -> & Ht)]]].
  - exists EmptyString. left. split; reflexivity.
  - destruct (String.prefix Regime.delimiter (String c s)) eqn:Hp.
    + destruct (prefix_inv _ _ Hp) as [r Hr].
      exists r. right. exists EmptyString. split; [exact Hr|].
      unfold Regime.delimiter in Hr. rewrite append_cons in Hr.
      injection Hr as _ ->.
      destruct (contains Regime.delimiter r) eqn:Hc; [|reflexivity].
      rewrite (contains_app_r _ _ _ Hc) in Hno. discriminate Hno.
    + exists (String c s). left. split; [|reflexivity].
      rewrite contains_cons, Hp, Hno. reflexivity.
  - exists t. right. exists (String c before). split; [reflexivity|exact Ht].
Qed.

End Split.

(** ** [strip] *)

Section Strip.

Import PyStr.

Lemma lstrip_spec (s : string) :
  exists ws, s = ws +:+ lstrip s /\ blank ws = true.
Proof.
  induction s as [|c s (ws & E & Hws)].
  - exists EmptyString. split; reflexivity.
  - simpl. destruct (isspace c) eqn:Hc.
    + exists (String c ws). rewrite append_cons, <- E. split; [reflexivity|].
      simpl. rewrite Hc, Hws. reflexivity.
    + exists EmptyString. split; reflexivity.
Qed.

Lemma rstrip_spec (s : string) :
  exists ws, s = rstrip s +:+ ws /\ blank ws = true.
Proof.
  induction s as [|c s (ws & E & Hws)].
  - exists EmptyString. split; reflexivity.
  - simpl. destruct (rstrip s) as [|d r] eqn:Hr.
    + rewrite append_nil_l in E. subst ws.
      destruct (isspace c) eqn:Hc.
      * exists (String c s). split; [reflexivity|].
        simpl. rewrite Hc, Hws. reflexivity.
      * exists s. split; [reflexivity|exact Hws].
    + exists ws. rewrite append_cons, <- E. split; [reflexivity|exact Hws].
Qed.

(** [strip] removes whitespace and nothing else. *)
Lemma strip_spec (s : string) :
  exists front back,
    s = front +:+ strip s +:+ back /\ blank front = true /\ blank back = true.
Proof.
  destruct (lstrip_spec s) as (front & E1 & H1).
  destruct (rstrip_spec (lstrip s)) as (back & E2 & H2).
  exists front, back. unfold strip. rewrite <- E2, <- E1. repeat split; assumption.
Qed.

(** What [rstrip] keeps does not end with whitespace. *)
Lemma rstrip_last (s r : string) (c : ascii) :
  rstrip s = r +:+ String c EmptyString -> isspace c = false.
Proof.
  revert r. induction s as [|d s IH]; intros r H.
  - destruct r; discriminate H.
  - simpl in H. destruct (rstrip s) as [|e q] eqn:Hq.
    + destruct (isspace d) eqn:Hd; [destruct r; discriminate H|].
      destruct r as [|x [|y r]]; try discriminate H.
      rewrite append_nil_l in H. injection H as <-. exact Hd.
    + destruct r as [|x r].
      * rewrite append_nil_l in H. discriminate H.
      * rewrite append_cons in H. injection H as _ H. apply (IH r H).
Qed.

End Strip.

(** ** The prompt template *)

Section Template.

Import PyStr Regime.

(** The rendered prompt, for a record whose three fields are text. *)
Lemma format_prompt_text (w : world) (d : gmap string json)
    (instruction input output : string) :
  d !! "instruction" = Some (JStr instruction) ->
  d !! "input" = Some (JStr input) ->
  d !! "output" = Some (JStr output) ->
  format_prompt w (JDict d) =
  Ok ("<s>[INST] " +:+ instruction +:+ nl +:+ nl +:+ input +:+ nl +:+ nl +:+
      directive +:+ " [/INST] " +:+ output +:+ "</s>").
Proof.
  intros Hi Hn Ho. unfold format_prompt, getitem.
  rewrite Hi, Hn, Ho. reflexivity.
Qed.

(** The first missing field is reported, and nothing is rendered. *)
Lemma format_prompt_missing (w : world) (d : gmap string json) :
  d !! "instruction" = None ->
  format_prompt w (JDict d) = Raise (KeyError "instruction").
Proof. intros H. unfold format_prompt, getitem. rewrite H. reflexivity. Qed.

(** C1.  For every regime record whose fields [instruction], [input] and
    [output] are text, [format_prompt] returns a prompt that contains the
    instruction, the input block and the fixed enumeration of the four
    labels verbatim, and in which the output comes after the closing
    [[/INST]] of the template. *)
Theorem C1_format_prompt_contains (w : world) (d : gmap string json)
    (instruction input output : string) :
  d !! "instruction" = Some (JStr instruction) ->
  d !! "input" = Some (JStr input) ->
  d !! "output" = Some (JStr output) ->
  exists prompt before,
    format_prompt w (JDict d) = Ok prompt /\
    contains instruction prompt = true /\
    contains input prompt = true /\
    contains "Classify the market regime as one of: bull, bear, sideways, or high-volatility"
             prompt = true /\
    prompt = before +:+ "[/INST]" +:+ " " +:+ output +:+ "</s>" /\
    before = "<s>[INST] " +:+ instruction +:+ nl +:+ nl +:+ input +:+ nl +:+ nl +:+
             directive +:+ " ".
Proof.
  intros Hi Hn Ho.
  eexists _, ("<s>[INST] " +:+ instruction +:+ nl +:+ nl +:+ input +:+ nl +:+ nl +:+
              directive +:+ " ").
  split; [apply (format_prompt_text w d _ _ _ Hi Hn Ho)|].
  split; [apply contains_intro|].
  split; [rewrite <- 3!append_assoc; apply contains_intro|].
  split; [|split; [|reflexivity]].
  - fold directive. rewrite <- 6!append_assoc. apply contains_intro.
  - rewrite !append_assoc. reflexivity.
Qed.

Lemma C1_witness :
  exists prompt before,
    format_prompt Scenario.demo Scenario.regime_record = Ok prompt /\
    contains "Classify" prompt = true /\
    contains "RSI: 70" prompt = true /\
    contains "Classify the market regime as one of: bull, bear, sideways, or high-volatility"
             prompt = true /\
    prompt = before +:+ "[/INST]" +:+ " " +:+ "bull" +:+ "</s>" /\
    before = "<s>[INST] " +:+ "Classify" +:+ nl +:+ nl +:+ "RSI: 70" +:+ nl +:+ nl +:+
             directive +:+ " ".
Proof.
  apply (C1_format_prompt_contains Scenario.demo
           {[ "instruction" := JStr "Classify"; "input" := JStr "RSI: 70";
              "output" := JStr "bull" ]} "Classify" "RSI: 70" "bull");
    reflexivity.
Defined.

End Template.

Section Scenario2.

Import PyStr Regime.

(** C5, as stated, fails: the prompt rendered for the record of scenario 2
    does not end with the gold label. *)
Lemma C5_counterexample :
  ~ (exists prompt,
       format_prompt Scenario.demo Scenario.regime_record = Ok prompt /\
       contains "RSI: 70" prompt = true /\
       endswith prompt "bull" = true).
Proof.
  intros (prompt & H & _ & E).
  vm_compute in H. injection H as <-.
  vm_compute in E. discriminate E.
Qed.

(** C5, amended.  The line of scenario 2 decodes to the record with the
    fields [Classify], [RSI: 70] and [bull]; the prompt rendered for it
    contains [RSI: 70] and ends with the closing instruction tag, a blank,
    the gold label [bull] and the end-of-sequence mark [</s>]. *)
Theorem C5_scenario2_prompt (w : world) :
  Json.loads Scenario.regime_line = Some Scenario.regime_record /\
  exists prompt,
    format_prompt w Scenario.regime_record = Ok prompt /\
    contains "RSI: 70" prompt = true /\
    endswith prompt "[/INST] bull</s>" = true /\
    prompt = "<s>[INST] Classify" +:+ nl +:+ nl +:+ "RSI: 70" +:+ nl +:+ nl +:+
             directive +:+ " [/INST] bull</s>".
Proof.
  split; [vm_compute; reflexivity|].
  eexists. split; [reflexivity|].
  split; [vm_compute; reflexivity|].
  split; vm_compute; reflexivity.
Qed.

Lemma test_prompt_prefix (w : world) (test : test_case) (output : string) :
  format_prompt w
    (JDict {[ "instruction" := JStr test_instruction;
              "input" := JStr (input test);
              "output" := JStr output ]}) =
  Ok (test_prompt test +:+ " " +:+ output +:+ "</s>").
Proof.
  rewrite (format_prompt_text w _ test_instruction (input test) output);
    [|reflexivity..].
  unfold test_prompt. rewrite !append_assoc. reflexivity.
Qed.

(** C6.  For each of the three fixed test cases, the prompt the tester
    builds is the prompt [format_prompt] renders for the tester's
    instruction and the case's input, with the gold output left out: the
    training prompt is the test prompt, which ends with the closing
    [[/INST]], followed by a blank, the output and [</s>], whatever the
    output; and the training prompt for the case's expected label, cut after
    its closing delimiter, is the test prompt. *)
Theorem C6_test_prompt_is_training_prompt :
  length test_cases = 3 /\
  Forall (fun test =>
            forall w : world,
              (forall output : string,
                  format_prompt w
                    (JDict {[ "instruction" := JStr test_instruction;
                              "input" := JStr (input test);
                              "output" := JStr output ]}) =
                  Ok (test_prompt test +:+ " " +:+ output +:+ "</s>")) /\
              endswith (test_prompt test) "[/INST]" = true /\
              (exists prompt,
                  format_prompt w
                    (JDict {[ "instruction" := JStr test_instruction;
                              "input" := JStr (input test);
                              "output" := JStr (expected test) ]}) = Ok prompt /\
                  upto_closing_delimiter prompt = test_prompt test))
         test_cases.
Proof.
  split; [reflexivity|].
  assert (forall test, endswith (test_prompt test) "[/INST]" = true) as Hend.
  { intros test. unfold test_prompt.
    change (directive +:+ " [/INST]") with ((directive +:+ " ") +:+ "[/INST]").
    rewrite <- !append_assoc. apply endswith_intro. }
  unfold test_cases.
  repeat (apply Forall_cons; split;
          [intros w; split; [intros output; apply test_prompt_prefix|];
           split; [apply Hend|];
           eexists; split; [apply test_prompt_prefix|vm_compute; reflexivity]|]).
  apply Forall_nil. exact I.
Qed.

End Scenario2.

(** ** Label extraction *)

Section Extraction.

Import PyStr Regime.

(** The scan returns the first label of its list that occurs in the text,
    and the text itself when none does. *)
Lemma scan_first (labels : list string) (prediction : string) :
  (exists i first,
      labels !! i = Some first /\ scan labels prediction = first /\
      contains first prediction = true /\
      forall j other, j < i -> labels !! j = Some other ->
                      contains other prediction = false) \/
  (scan labels prediction = prediction /\
   forall other, other ∈ labels -> contains other prediction = false).
Proof.
  induction labels as [|regime labels IH]; simpl.
  - right. split; [reflexivity|]. intros other H. inversion H.
  - destruct (contains regime prediction) eqn:E.
    + left. exists 0, regime. repeat split; try assumption. intros j other Hj. lia.
    + destruct IH as [(i & first & Hi & Hs & Hc & Hb)|[Hs Hn]].
      * left. exists (S i), first. repeat split; try assumption.
        intros [|j] other Hj Ho; simpl in Ho.
        -- congruence.
        -- apply (Hb j); [lia|assumption].
      * right. split; [assumption|].
        intros other [->|H]%elem_of_cons; [assumption|apply Hn, H].
Qed.

(** C2.  The labels are scanned in the order bull, bear, sideways,
    high-volatility, and when at least one of them occurs in the generated
    text (as the loop receives it: the text after the last delimiter,
    stripped and lowercased) the prediction is the first of that order that
    occurs in it, whichever others occur as well. *)
Theorem C2_first_label_in_priority_order (result label : string) :
  label ∈ regimes ->
  contains label (raw_prediction result) = true ->
  regimes = ["bull"; "bear"; "sideways"; "high-volatility"] /\
  exists i first,
    regimes !! i = Some first /\
    predict result = first /\
    contains first (raw_prediction result) = true /\
    forall j other, j < i -> regimes !! j = Some other ->
                    contains other (raw_prediction result) = false.
Proof.
  intros Hin Hc. split; [reflexivity|].
  unfold predict, extract_label.
  destruct (scan_first regimes (raw_prediction result))
    as [(i & first & H)|[_ Hn]].
  - exists i, first. exact H.
  - rewrite (Hn label Hin) in Hc. discriminate Hc.
Qed.

(** Two labels occur in the answer of the demo model; the earlier in the
    order wins although it comes later in the text. *)
Lemma C2_witness :
  regimes = ["bull"; "bear"; "sideways"; "high-volatility"] /\
  exists i first,
    regimes !! i = Some first /\
    predict ("[INST] which? [/INST] Bearish, then BULL" +:+ nl) = first /\
    contains first (raw_prediction ("[INST] which? [/INST] Bearish, then BULL" +:+ nl)) = true /\
    forall j other, j < i -> regimes !! j = Some other ->
      contains other (raw_prediction ("[INST] which? [/INST] Bearish, then BULL" +:+ nl)) = false.
Proof.
  apply (C2_first_label_in_priority_order
           ("[INST] which? [/INST] Bearish, then BULL" +:+ nl) "bear").
  - unfold regimes. repeat constructor.
  - vm_compute. reflexivity.
Defined.

Lemma demo_prediction :
  raw_prediction ("[INST] which? [/INST] Bearish, then BULL" +:+ nl) = "bearish, then bull" /\
  predict ("[INST] which? [/INST] Bearish, then BULL" +:+ nl) = "bull".
Proof. split; vm_compute; reflexivity. Qed.

Lemma labels_fixed (label : string) :
  label ∈ regimes ->
  extract_label label = label /\ predict label = label.
Proof.
  unfold regimes. intros H.
  repeat (apply elem_of_cons in H as [->|H]; [split; vm_compute; reflexivity|]).
  inversion H.
Qed.

(** C9.  A text that is exactly one of the four labels is its own label,
    for the scan alone and for the whole extraction that splits, strips and
    lowercases first; [bull] gives [bull]. *)
Theorem C9_extraction_fixes_labels (label : string) :
  label ∈ regimes ->
  extract_label label = label /\ predict label = label.
Proof. apply labels_fixed. Qed.

Lemma C9_witness : extract_label "bull" = "bull" /\ predict "bull" = "bull".
Proof.
  apply (C9_extraction_fixes_labels "bull").
  unfold regimes. repeat constructor.
Defined.

(** Extraction applied twice is extraction applied once. *)
Lemma extract_label_idempotent (prediction : string) :
  extract_label (extract_label prediction) = extract_label prediction.
Proof.
  unfold extract_label.
  destruct (scan_first regimes prediction) as [(i & first & Hi & -> & _)|[E Hn]].
  - apply (labels_fixed first).
    apply list_elem_of_lookup. exists i. exact Hi.
  - rewrite E. exact E.
Qed.

End Extraction.

Section NoLabel.

Import PyStr Regime.

Lemma scan_none (labels : list string) (prediction : string) :
  (forall regime, regime ∈ labels -> contains regime prediction = false) ->
  scan labels prediction = prediction.
Proof.
  induction labels as [|regime labels IH]; intros H; [reflexivity|].
  simpl. rewrite (H regime) by constructor.
  apply IH. intros other Ho. apply H. constructor. exact Ho.
Qed.

(** The raw prediction is the text after the last delimiter, stripped and
    lowercased. *)
Lemma raw_prediction_tail (result t : string) :
  after_last_delimiter result t ->
  raw_prediction result = lower (strip t).
Proof.
  intros H. unfold raw_prediction. rewrite (last_segment result t H). reflexivity.
Qed.

(** C10.  When none of the four labels occurs in the text the loop scans,
    the extraction returns no label and no default: the prediction is the
    generated text after the last [[/INST]], stripped of surrounding
    whitespace and lowercased, and the comparison succeeds exactly when the
    expected label is that very text. *)
Theorem C10_no_label_keeps_raw_text (result t expected : string) :
  after_last_delimiter result t ->
  (forall regime, regime ∈ regimes ->
                  contains regime (lower (strip t)) = false) ->
  predict result = lower (strip t) /\
  (passed (predict result) expected = true <-> expected = lower (strip t)) /\
  (expected <> lower (strip t) -> passed (predict result) expected = false).
Proof.
  intros Htail Hnone.
  assert (predict result = lower (strip t)) as E.
  { unfold predict, extract_label. rewrite (raw_prediction_tail result t Htail).
    apply scan_none, Hnone. }
  rewrite E. unfold passed. split; [reflexivity|]. split.
  - rewrite String.eqb_eq. split; congruence.
  - intros Hne. apply String.eqb_neq. congruence.
Qed.

Lemma C10_witness :
  predict ("<s>[INST] a [/INST] b [/INST]  Unclear Market " +:+ nl) = lower (strip ("  Unclear Market " +:+ nl)) /\
  (passed (predict ("<s>[INST] a [/INST] b [/INST]  Unclear Market " +:+ nl)) "sideways" = true
   <-> "sideways" = lower (strip ("  Unclear Market " +:+ nl))) /\
  ("sideways" <> lower (strip ("  Unclear Market " +:+ nl)) ->
   passed (predict ("<s>[INST] a [/INST] b [/INST]  Unclear Market " +:+ nl)) "sideways" = false).
Proof.
  apply (C10_no_label_keeps_raw_text
           ("<s>[INST] a [/INST] b [/INST]  Unclear Market " +:+ nl)
           ("  Unclear Market " +:+ nl) "sideways").
  - right. exists "<s>[INST] a [/INST] b ". split; vm_compute; reflexivity.
  - unfold regimes. intros regime H.
    repeat (apply elem_of_cons in H as [->|H]; [vm_compute; reflexivity|]).
    inversion H.
Defined.

Lemma unclear_prediction :
  predict ("<s>[INST] a [/INST] b [/INST]  Unclear Market " +:+ nl) = "unclear market".
Proof. vm_compute. reflexivity. Qed.

(** With a label expected, as in the three fixed test cases, a prediction
    without any label is always reported as a failure. *)
Lemma no_label_fails (result expected : string) :
  expected ∈ regimes ->
  (forall regime, regime ∈ regimes ->
                  contains regime (raw_prediction result) = false) ->
  passed (predict result) expected = false.
Proof.
  intros He Hnone. unfold predict, extract_label, passed.
  rewrite (scan_none _ _ Hnone). apply String.eqb_neq. intros E.
  pose proof (Hnone expected He) as Hc. rewrite <- E in Hc.
  pose proof (contains_intro (raw_prediction result) EmptyString EmptyString) as Hs.
  rewrite append_nil_l, append_nil_r in Hs. congruence.
Qed.

End NoLabel.

(** ** Loops that append *)

Section Traverse.

Context {A B : Type} (f : A -> result B).

Lemma traverse_cons (x : A) (l : list A) :
  traverse f (x :: l) =
  match f x with
  | Raise e => Raise e
  | Ok y => match traverse f l with
            | Raise e => Raise e
            | Ok ys => Ok (y :: ys)
            end
  end.
Proof. reflexivity. Qed.

(** One result per element, in order. *)
Lemma traverse_ok (l : list A) (ys : list B) :
  traverse f l = Ok ys -> Forall2 (fun x y => f x = Ok y) l ys.
Proof.
  revert ys. induction l as [|x l IH]; intros ys H.
  - injection H as <-. constructor.
  - rewrite traverse_cons in H.
    destruct (f x) as [y|e] eqn:Ex; [|discriminate].
    destruct (traverse f l) as [ys'|e]; [|discriminate].
    injection H as <-. constructor; [exact Ex|apply IH; reflexivity].
Qed.

Lemma traverse_total (l : list A) :
  Forall (fun x => exists y, f x = Ok y) l -> exists ys, traverse f l = Ok ys.
Proof.
  induction 1 as [|x l [y Hy] _ [ys IH]].
  - exists []. reflexivity.
  - exists (y :: ys). rewrite traverse_cons, Hy, IH. reflexivity.
Qed.

(** When every failure is the exception [e], one failing element is enough
    for the loop to end with [e]. *)
Lemma traverse_raise (e : exn) (l : list A) (x : A) :
  (forall a e', f a = Raise e' -> e' = e) ->
  x ∈ l -> f x = Raise e -> traverse f l = Raise e.
Proof.
  intros Hall Hin Hx. induction Hin as [x l|x z l Hin IH].
  - rewrite traverse_cons, Hx. reflexivity.
  - rewrite traverse_cons, (IH Hx).
    destruct (f z) as [y|e'] eqn:Ez; [reflexivity|].
    rewrite (Hall _ _ Ez). reflexivity.
Qed.

End Traverse.

(** ** The loaders *)

Section Loaders.

Import PyStr.

Lemma decode_line_raises (w : world) (line : string) (e : exn) :
  Regime.decode_line w line = Raise e -> e = JSONDecodeError.
Proof.
  unfold Regime.decode_line. destruct (json_loads w line); [discriminate|].
  intros H. injection H as <-. reflexivity.
Qed.

Lemma decode_line_ok (w : world) (line : string) (v : json) :
  Regime.decode_line w line = Ok v <-> json_loads w line = Some v.
Proof.
  unfold Regime.decode_line. destruct (json_loads w line); split; congruence.
Qed.

(** What the regime loader does with a file that is there. *)
Lemma regime_loader_run (w : world) (path text : string) (log : list event) :
  files w !! path = Some text ->
  Regime.load_training_data w path log =
  match traverse (Regime.decode_line w) (readlines (universal_newlines text)) with
  | Ok data =>
      (log ++ [Enter "load_training_data"; Open path;
               Print ("Loaded " +:+ pretty (length data) +:+ " training examples")],
       Ok data)
  | Raise e => (log ++ [Enter "load_training_data"; Open path], Raise e)
  end.
Proof.
  intros Hf. unfold Regime.load_training_data, open_read, emit, lift, print.
  unfold mbind, run_bind, mret, run_ret, emit. rewrite Hf.
  destruct (traverse _ _); rewrite <- ?app_assoc; reflexivity.
Qed.

Lemma embedding_loader_run (w : world) (path text : string) (log : list event) :
  files w !! path = Some text ->
  Embedding.load_training_data w path log =
  (log ++ [Enter "load_training_data"; Open path],
   match json_loads w (universal_newlines text) with
   | Some data => Ok data
   | None => Raise JSONDecodeError
   end).
Proof.
  intros Hf. unfold Embedding.load_training_data, open_read, emit, raise.
  unfold mbind, run_bind, mret, run_ret. rewrite Hf.
  destruct (json_loads w _); rewrite <- ?app_assoc; reflexivity.
Qed.

(** A missing file stops either loader at [open]. *)
Lemma regime_loader_missing (w : world) (path : string) (log : list event) :
  files w !! path = None ->
  Regime.load_training_data w path log =
  (log ++ [Enter "load_training_data"; Open path], Raise (FileNotFoundError path)).
Proof.
  intros Hf. unfold Regime.load_training_data, open_read, emit, lift, print.
  unfold mbind, run_bind, mret, run_ret, emit. rewrite Hf.
  rewrite <- ?app_assoc; reflexivity.
Qed.

Lemma embedding_loader_missing (w : world) (path : string) (log : list event) :
  files w !! path = None ->
  Embedding.load_training_data w path log =
  (log ++ [Enter "load_training_data"; Open path], Raise (FileNotFoundError path)).
Proof.
  intros Hf. unfold Embedding.load_training_data, open_read, emit, raise.
  unfold mbind, run_bind, mret, run_ret. rewrite Hf.
  rewrite <- ?app_assoc; reflexivity.
Qed.

End Loaders.

Section LoaderClaims.

Import PyStr.

(** C3.  For a file that is there and valid, the loader returns one record
    per record of the file, in the order of the file.  Embedding case: the
    file decodes to an array, and the loader returns that array, which the
    formatter then iterates element by element.  Regime case: every line
    decodes, and the loader returns the decoded lines, as many as the file
    has lines and in their order. *)
Theorem C3_loader_preserves_records (w : world) (path text : string)
    (log : list event) :
  files w !! path = Some text ->
  (forall records : list json,
      json_loads w (universal_newlines text) = Some (JList records) ->
      Embedding.load_training_data w path log =
      (log ++ [Enter "load_training_data"; Open path], Ok (JList records)) /\
      py_iter (JList records) = Ok records) /\
  (Forall (fun line => is_Some (json_loads w line))
          (readlines (universal_newlines text)) ->
   exists data : list json,
     Regime.load_training_data w path log =
     (log ++ [Enter "load_training_data"; Open path;
              Print ("Loaded " +:+ pretty (length data) +:+ " training examples")],
      Ok data) /\
     length data = length (readlines (universal_newlines text)) /\
     Forall2 (fun line record => json_loads w line = Some record)
             (readlines (universal_newlines text)) data).
Proof.
  intros Hf. split.
  - intros records Hd. rewrite (embedding_loader_run w path text log Hf), Hd.
    split; reflexivity.
  - intros Hall.
    destruct (traverse_total (Regime.decode_line w)
                (readlines (universal_newlines text))) as [data Hdata].
    { eapply Forall_impl; [exact Hall|]. intros line [v Hv].
      exists v. apply decode_line_ok, Hv. }
    exists data. rewrite (regime_loader_run w path text log Hf), Hdata.
    apply traverse_ok in Hdata.
    split; [reflexivity|]. split.
    + symmetry. eapply Forall2_length, Hdata.
    + eapply Forall2_impl; [exact Hdata|].
      intros line v Hv. apply decode_line_ok, Hv.
Qed.

Lemma C3_witness :
  (Embedding.load_training_data Scenario.demo Scenario.pairs_path [] =
   ([Enter "load_training_data"; Open Scenario.pairs_path],
    Ok (JList [Scenario.embedding_record])) /\
   py_iter (JList [Scenario.embedding_record]) = Ok [Scenario.embedding_record]) /\
  (exists data : list json,
     Regime.load_training_data Scenario.demo Scenario.regime_path [] =
     ([Enter "load_training_data"; Open Scenario.regime_path;
       Print ("Loaded " +:+ pretty (length data) +:+ " training examples")],
      Ok data) /\
     length data = 2 /\
     Forall2 (fun line record => Json.loads line = Some record)
             [Scenario.regime_line +:+ nl; Scenario.second_line +:+ nl] data).
Proof.
  split.
  - apply (proj1 (C3_loader_preserves_records Scenario.demo Scenario.pairs_path
                    Scenario.embedding_text [] eq_refl)).
    vm_compute. reflexivity.
  - apply (proj2 (C3_loader_preserves_records Scenario.demo Scenario.regime_path
                    (Scenario.regime_line +:+ nl +:+ Scenario.second_line +:+ nl)
                    [] eq_refl)).
    repeat constructor; vm_compute; eexists; reflexivity.
Defined.

(** C7.  If a line of the regime file is not valid JSON, the loader ends
    with the decoder's exception [JSONDecodeError] (the specification's
    [DataFormatError]): the line is not skipped, no sequence of records is
    returned and the count of loaded examples is never printed. *)
Theorem C7_malformed_line_raises (w : world) (path text line : string)
    (log : list event) :
  files w !! path = Some text ->
  line ∈ readlines (universal_newlines text) ->
  json_loads w line = None ->
  Regime.load_training_data w path log =
  (log ++ [Enter "load_training_data"; Open path], Raise JSONDecodeError) /\
  (forall log' data, Regime.load_training_data w path log <> (log', Ok data)).
Proof.
  intros Hf Hin Hbad.
  assert (Regime.load_training_data w path log =
          (log ++ [Enter "load_training_data"; Open path], Raise JSONDecodeError)) as E.
  { rewrite (regime_loader_run w path text log Hf).
    rewrite (traverse_raise (Regime.decode_line w) JSONDecodeError _ line).
    - reflexivity.
    - intros a e. apply decode_line_raises.
    - exact Hin.
    - unfold Regime.decode_line. rewrite Hbad. reflexivity. }
  split; [exact E|]. intros log' data. rewrite E. discriminate.
Qed.

Lemma C7_witness :
  Regime.load_training_data Scenario.demo Scenario.broken_path [] =
  ([Enter "load_training_data"; Open Scenario.broken_path], Raise JSONDecodeError) /\
  (forall log' data,
      Regime.load_training_data Scenario.demo Scenario.broken_path [] <> (log', Ok data)).
Proof.
  apply (C7_malformed_line_raises Scenario.demo Scenario.broken_path
           (Scenario.regime_line +:+ nl +:+ Scenario.malformed_line +:+ nl
            +:+ Scenario.second_line +:+ nl)
           (Scenario.malformed_line +:+ nl) []).
  - reflexivity.
  - vm_compute. repeat constructor.
  - vm_compute. reflexivity.
Defined.

End LoaderClaims.

(** ** The example formatter *)

Section Examples.

Import Embedding.

Lemma make_example_triple (item a p n : json) :
  has_triple item a p n ->
  make_example item = Ok (Example EmptyString [a; p; n] 0).
Proof.
  intros (d & -> & Ha & Hp & Hn). unfold make_example, getitem.
  rewrite Ha, Hp, Hn. reflexivity.
Qed.

Lemma has_triple_inj (item a p n a' p' n' : json) :
  has_triple item a p n -> has_triple item a' p' n' ->
  a = a' /\ p = p' /\ n = n'.
Proof.
  intros (d & -> & Ha & Hp & Hn) (d' & E & Ha' & Hp' & Hn').
  injection E as <-. repeat split; congruence.
Qed.

Lemma prepare_examples_run (items : list json) (log : list event) :
  prepare_examples (JList items) log =
  match traverse make_example items with
  | Ok examples =>
      (log ++ [Enter "prepare_examples";
               Print ("Prepared " +:+ pretty (length examples) +:+ " training examples")],
       Ok examples)
  | Raise e => (log ++ [Enter "prepare_examples"], Raise e)
  end.
Proof.
  unfold prepare_examples, py_iter, emit, lift, print.
  unfold mbind, run_bind, result_bind, mret, run_ret, emit.
  destruct (traverse make_example items); rewrite <- ?app_assoc; reflexivity.
Qed.

(** C4.  For every sequence of records that each have the fields [anchor],
    [positive] and [negative], [prepare_examples] returns one example per
    record, in the order of the records, whose texts are the three field
    values, unchanged, in the order anchor, positive, negative. *)
Theorem C4_prepare_examples_triples (items : list json) (log : list event) :
  Forall (fun item => exists a p n, has_triple item a p n) items ->
  exists examples : list InputExample,
    prepare_examples (JList items) log =
    (log ++ [Enter "prepare_examples";
             Print ("Prepared " +:+ pretty (length examples) +:+ " training examples")],
     Ok examples) /\
    length examples = length items /\
    Forall2 (fun item example =>
               forall a p n, has_triple item a p n -> texts example = [a; p; n])
            items examples.
Proof.
  intros Hall.
  destruct (traverse_total make_example items) as [examples Hex].
  { eapply Forall_impl; [exact Hall|]. intros item (a & p & n & H).
    eexists. apply make_example_triple, H. }
  exists examples. rewrite prepare_examples_run, Hex.
  apply traverse_ok in Hex.
  split; [reflexivity|]. split.
  - symmetry. eapply Forall2_length, Hex.
  - eapply Forall2_impl; [exact Hex|].
    intros item example Hm a p n Ht. cbv beta in Hm.
    rewrite (make_example_triple item a p n Ht) in Hm.
    injection Hm as <-. reflexivity.
Qed.

(** Scenario 1: the file with one triple gives one example made of its
    three texts in order. *)
Lemma C4_witness :
  exists examples : list InputExample,
    prepare_examples (JList [Scenario.embedding_record]) [] =
    ([Enter "prepare_examples";
      Print ("Prepared " +:+ pretty (length examples) +:+ " training examples")],
     Ok examples) /\
    length examples = 1 /\
    Forall2 (fun item example =>
               forall a p n, has_triple item a p n -> texts example = [a; p; n])
            [Scenario.embedding_record] examples.
Proof.
  apply (C4_prepare_examples_triples [Scenario.embedding_record] []).
  repeat constructor.
  exists (JStr "BTC surge"), (JStr "Bitcoin rally"), (JStr "ETH crash").
  eexists. repeat split; reflexivity.
Defined.

Lemma scenario1 :
  Json.loads Scenario.embedding_text = Some (JList [Scenario.embedding_record]) /\
  prepare_examples (JList [Scenario.embedding_record]) [] =
  ([Enter "prepare_examples"; Print "Prepared 1 training examples"],
   Ok [Example EmptyString
         [JStr "BTC surge"; JStr "Bitcoin rally"; JStr "ETH crash"] 0]).
Proof. split; vm_compute; reflexivity. Qed.

(** A record without one of the fields stops the formatter. *)
Lemma make_example_missing (d : gmap string json) :
  d !! "anchor" = None -> make_example (JDict d) = Raise (KeyError "anchor").
Proof. intros H. unfold make_example, getitem. rewrite H. reflexivity. Qed.

End Examples.

(** ** A missing training file *)

Section MissingFile.

(** The embedding trainer, up to its loader. *)
Lemma embedding_train_missing (w : world) (self : Embedding.trainer)
    (path : string) (epochs batch_size warmup_steps : Z) :
  files w !! path = None ->
  Embedding.train w self path epochs batch_size warmup_steps [] =
  if lib_ok w (SentenceTransformer_new (Embedding.base_model self))
  then ([Enter "train";
         Print ("Loading base model: " +:+ Embedding.base_model self);
         Lib (SentenceTransformer_new (Embedding.base_model self));
         Enter "load_training_data"; Open path],
        Raise (FileNotFoundError path))
  else ([Enter "train";
         Print ("Loading base model: " +:+ Embedding.base_model self);
         Lib (SentenceTransformer_new (Embedding.base_model self))],
        Raise (LibraryError (SentenceTransformer_new (Embedding.base_model self)))).
Proof.
  intros Hf. unfold Embedding.train. run_steps.
  destruct (lib_ok w _); [|reflexivity].
  rewrite (embedding_loader_missing w path _ Hf). reflexivity.
Qed.

(** The regime trainer, up to its loader. *)
Lemma regime_train_missing (w : world) (self : Regime.trainer)
    (path : string) (epochs batch_size : Z) :
  files w !! path = None ->
  Regime.train w self path epochs batch_size [] =
  let name := Regime.model_name self in
  let start := [Enter "train"; Print ("Loading model: " +:+ name);
                Lib (AutoModelForCausalLM_from_pretrained name)] in
  if lib_ok w (AutoModelForCausalLM_from_pretrained name) then
    if lib_ok w (AutoTokenizer_from_pretrained name)
    then (start ++ [Lib (AutoTokenizer_from_pretrained name);
                    Enter "load_training_data"; Open path],
          Raise (FileNotFoundError path))
    else (start ++ [Lib (AutoTokenizer_from_pretrained name)],
          Raise (LibraryError (AutoTokenizer_from_pretrained name)))
  else (start, Raise (LibraryError (AutoModelForCausalLM_from_pretrained name))).
Proof.
  intros Hf. unfold Regime.train. run_steps.
  destruct (lib_ok w (AutoModelForCausalLM_from_pretrained _)); [|reflexivity].
  destruct (lib_ok w (AutoTokenizer_from_pretrained _)); [|reflexivity].
  rewrite (regime_loader_missing w path _ Hf). reflexivity.
Qed.

(** C8.  If the path of the training file does not exist, the loader of
    either script fails with [FileNotFoundError] (the specification's
    [NotFoundError]), and [train] ends there: its run raises, and its trace
    holds no formatter entry and no library call other than the loading of
    the base model and tokenizer that precedes the loader.  When that
    loading succeeds, the exception of the run is the loader's. *)
Theorem C8_missing_file_stops_before_formatting (w : world) (path : string) :
  files w !! path = None ->
  (forall log,
      Embedding.load_training_data w path log =
      (log ++ [Enter "load_training_data"; Open path], Raise (FileNotFoundError path))) /\
  (forall log,
      Regime.load_training_data w path log =
      (log ++ [Enter "load_training_data"; Open path], Raise (FileNotFoundError path))) /\
  (forall self epochs batch_size warmup_steps,
      exists trace e,
        Embedding.train w self path epochs batch_size warmup_steps [] = (trace, Raise e) /\
        Forall (fun ev => formats_or_trains ev = false) trace /\
        (lib_ok w (SentenceTransformer_new (Embedding.base_model self)) = true ->
         e = FileNotFoundError path)) /\
  (forall self epochs batch_size,
      exists trace e,
        Regime.train w self path epochs batch_size [] = (trace, Raise e) /\
        Forall (fun ev => formats_or_trains ev = false) trace /\
        (lib_ok w (AutoModelForCausalLM_from_pretrained (Regime.model_name self)) = true ->
         lib_ok w (AutoTokenizer_from_pretrained (Regime.model_name self)) = true ->
         e = FileNotFoundError path)).
Proof.
  intros Hf.
  split; [intros log; apply embedding_loader_missing, Hf|].
  split; [intros log; apply regime_loader_missing, Hf|].
  split.
  - intros self epochs batch_size warmup_steps.
    rewrite (embedding_train_missing w self path _ _ _ Hf).
    destruct (lib_ok w _); eexists _, _;
      (split; [reflexivity|]); (split; [repeat constructor|]);
      intros; congruence.
  - intros self epochs batch_size.
    rewrite (regime_train_missing w self path _ _ Hf). cbv zeta.
    destruct (lib_ok w (AutoModelForCausalLM_from_pretrained _));
      [destruct (lib_ok w (AutoTokenizer_from_pretrained _))|];
      eexists _, _;
      (split; [reflexivity|]); (split; [repeat constructor|]);
      intros; congruence.
Qed.

Lemma C8_witness :
  Embedding.load_training_data Scenario.demo Scenario.missing_path [] =
  ([Enter "load_training_data"; Open Scenario.missing_path],
   Raise (FileNotFoundError Scenario.missing_path)) /\
  Regime.load_training_data Scenario.demo Scenario.missing_path [] =
  ([Enter "load_training_data"; Open Scenario.missing_path],
   Raise (FileNotFoundError Scenario.missing_path)) /\
  (exists trace e,
      Embedding.train Scenario.demo Embedding.init Scenario.missing_path 10 16 100 [] =
      (trace, Raise e) /\
      Forall (fun ev => formats_or_trains ev = false) trace) /\
  (exists trace e,
      Regime.train Scenario.demo Regime.init Scenario.missing_path 3 2 [] =
      (trace, Raise e) /\
      Forall (fun ev => formats_or_trains ev = false) trace).
Proof.
  destruct (C8_missing_file_stops_before_formatting Scenario.demo
              Scenario.missing_path eq_refl) as (He & Hr & Hte & Htr).
  split; [apply (He [])|]. split; [apply (Hr [])|]. split.
  - destruct (Hte Embedding.init 10%Z 16%Z 100%Z) as (trace & e & H1 & H2 & _).
    exists trace, e. split; assumption.
  - destruct (Htr Regime.init 3%Z 2%Z) as (trace & e & H1 & H2 & _).
    exists trace, e. split; assumption.
Defined.

(** The run on the missing file, step by step. *)
Lemma missing_file_trace :
  Regime.train Scenario.demo Regime.init Scenario.missing_path 3 2 [] =
  ([Enter "train"; Print "Loading model: mistralai/Mistral-7B-Instruct-v0.2";
    Lib (AutoModelForCausalLM_from_pretrained "mistralai/Mistral-7B-Instruct-v0.2");
    Lib (AutoTokenizer_from_pretrained "mistralai/Mistral-7B-Instruct-v0.2");
    Enter "load_training_data"; Open Scenario.missing_path],
   Raise (FileNotFoundError Scenario.missing_path)).
Proof. vm_compute. reflexivity. Qed.

(** With the file in place the formatters and the trainer do run. *)
Lemma present_file_trace :
  exists trace self,
    Regime.train Scenario.demo Regime.init Scenario.regime_path 3 2 [] = (trace, Ok self) /\
    Enter "format_prompt" ∈ trace /\ Lib Trainer_train ∈ trace /\
    Exists (fun ev => formats_or_trains ev = true) trace.
Proof.
  eexists _, _. split; [vm_compute; reflexivity|].
  split; [|split].
  - apply list_elem_of_In. simpl. tauto.
  - apply list_elem_of_In. simpl. tauto.
  - apply Exists_exists. exists (Enter "format_prompt").
    split; [apply list_elem_of_In; simpl; tauto|reflexivity].
Qed.

End MissingFile.


(** ** The scripts at work *)

Section Runs.

Import PyStr.

Lemma split_three :
  split "[/INST]" "a[/INST]b[/INST] c" = ["a"; "b"; " c"].
Proof. reflexivity. Qed.

Lemma strip_lower_demo :
  lower (strip ("  Bull Market " +:+ nl)) = "bull market".
Proof. vm_compute. reflexivity. Qed.

Lemma readlines_demo :
  readlines (universal_newlines ("a" +:+ String CR nl +:+ "b" +:+ nl +:+ "c")) =
  ["a" +:+ nl; "b" +:+ nl; "c"].
Proof. vm_compute. reflexivity. Qed.

(** [lower] leaves no capital letter, so it is idempotent. *)
Lemma lower_char_idempotent (c : ascii) : lower_char (lower_char c) = lower_char c.
Proof. destruct c as [[] [] [] [] [] [] [] []]; vm_compute; reflexivity. Qed.

Lemma lower_idempotent (s : string) : lower (lower s) = lower s.
Proof.
  induction s as [|c s IH]; [reflexivity|].
  simpl. rewrite lower_char_idempotent, IH. reflexivity.
Qed.

(** [lstrip] leaves no blank in front. *)
Lemma lstrip_head (s : string) (c : ascii) (r : string) :
  lstrip s = String c r -> isspace c = false.
Proof.
  induction s as [|d s IH]; [discriminate|].
  simpl. destruct (isspace d) eqn:E; [exact IH|].
  intros H. injection H as <- _. exact E.
Qed.

Lemma loads_record :
  Json.loads Scenario.regime_line = Some Scenario.regime_record.
Proof. vm_compute. reflexivity. Qed.

Lemma loads_nested :
  Json.loads (Json.q " [1, -20, 1.5e3, true, null, {'a': [], 'a': 'x\ny'}] ") =
  Some (JList [JInt 1; JInt (-20); JFloat "1.5e3"; JBool true; JNull;
               JDict {[ "a" := JStr ("x" +:+ nl +:+ "y") ]}]).
Proof. vm_compute. reflexivity. Qed.

Lemma loads_malformed : Json.loads Scenario.malformed_line = None.
Proof. vm_compute. reflexivity. Qed.

Lemma loads_blank_line : Json.loads nl = None.
Proof. vm_compute. reflexivity. Qed.

(** The demo model repeats the prompt, whose directive names all four
    labels; only its answer after the closing delimiter is scanned. *)
Lemma first_test_run :
  let test := Regime.TestCase "RSI: 70" "bull" in
  Regime.run_test Scenario.demo 0 test [] =
  ([Lib (Tokenizer_call (Regime.test_prompt test));
    Lib (Model_generate (Regime.test_prompt test));
    Print "Test 1:"; Print "  Expected: bull"; Print "  Predicted: bull";
    Mark true; Print EmptyString],
   Ok tt).
Proof. vm_compute. reflexivity. Qed.

Lemma tester_marks :
  exists trace self,
    Regime.test_classifier Scenario.demo Regime.init [] = (trace, Ok self) /\
    List.filter (fun ev => match ev with Mark _ => true | _ => false end) trace =
    [Mark true; Mark false; Mark false].
Proof. eexists _, _. split; vm_compute; reflexivity. Qed.

End Runs.


(** ** Normalisation of the generated text *)

Section Normalisation.

Import PyStr Regime.

Lemma isspace_lower_char (c : ascii) : isspace (lower_char c) = isspace c.
Proof. destruct c as [[] [] [] [] [] [] [] []]; vm_compute; reflexivity. Qed.

Lemma lower_append (a b : string) : lower (a +:+ b) = lower a +:+ lower b.
Proof.
  induction a as [|c a IH]; [reflexivity|].
  rewrite append_cons. simpl. rewrite IH. reflexivity.
Qed.

Lemma lower_lstrip (s : string) : lower (lstrip s) = lstrip (lower s).
Proof.
  induction s as [|c s IH]; [reflexivity|].
  simpl. rewrite isspace_lower_char. destruct (isspace c); [exact IH|reflexivity].
Qed.

Lemma lower_rstrip (s : string) : lower (rstrip s) = rstrip (lower s).
Proof.
  induction s as [|c s IH]; [reflexivity|].
  simpl. rewrite <- IH, isspace_lower_char.
  destruct (rstrip s); simpl; [destruct (isspace c)|]; reflexivity.
Qed.

(** Stripping and lowercasing commute. *)
Lemma lower_strip (s : string) : lower (strip s) = strip (lower s).
Proof. unfold strip. rewrite lower_rstrip, lower_lstrip. reflexivity. Qed.

Lemma rstrip_idempotent (s : string) : rstrip (rstrip s) = rstrip s.
Proof.
  induction s as [|c s IH]; [reflexivity|].
  simpl. destruct (rstrip s) as [|d r] eqn:E.
  - destruct (isspace c) eqn:Hc; [reflexivity|]. simpl. rewrite Hc. reflexivity.
  - change (rstrip (String c (String d r)))
      with (match rstrip (String d r) with
            | EmptyString => if isspace c then EmptyString else String c EmptyString
            | q => String c q
            end).
    rewrite IH. reflexivity.
Qed.

Lemma rstrip_head (s : string) (c : ascii) (r : string) :
  isspace c = false -> exists q, rstrip (String c s) = String c q.
Proof.
  intros Hc. simpl. destruct (rstrip s); rewrite ?Hc; eexists; reflexivity.
Qed.

Lemma strip_idempotent (s : string) : strip (strip s) = strip s.
Proof.
  unfold strip. destruct (lstrip s) as [|c x] eqn:E; [reflexivity|].
  pose proof (lstrip_head s c x E) as Hc.
  destruct (rstrip_head x c x Hc) as [q Hq]. rewrite Hq.
  simpl lstrip. rewrite Hc, <- Hq. apply rstrip_idempotent.
Qed.

(** No capital letter survives [lower]: the delimiter cannot occur in a
    lowercased text. *)
Lemma lower_char_not_capital_I (c : ascii) : lower_char c <> "I"%char.
Proof. destruct c as [[] [] [] [] [] [] [] []]; vm_compute; discriminate. Qed.

Lemma contains_delimiter_lower (s : string) : contains delimiter (lower s) = false.
Proof.
  induction s as [|c s IH]; [reflexivity|].
  simpl lower. rewrite contains_cons, IH, orb_false_r.
  destruct (String.prefix _ _) eqn:Hp; [|reflexivity].
  unfold delimiter in Hp. apply prefix_cons in Hp as [_ Hp].
  destruct s as [|c1 [|c2 s]]; simpl lower in Hp; try discriminate Hp.
  - apply prefix_cons in Hp as [_ Hp]. simpl in Hp. discriminate Hp.
  - apply prefix_cons in Hp as [_ Hp]. apply prefix_cons in Hp as [E _].
    exfalso. apply (lower_char_not_capital_I c2). symmetry. exact E.
Qed.

Lemma raw_prediction_stripped (result : string) :
  strip (raw_prediction result) = raw_prediction result.
Proof.
  unfold raw_prediction. rewrite <- lower_strip, strip_idempotent. reflexivity.
Qed.

Lemma raw_prediction_fixed (result : string) :
  raw_prediction (raw_prediction result) = raw_prediction result.
Proof.
  assert (contains delimiter (raw_prediction result) = false) as Hd
    by apply contains_delimiter_lower.
  unfold raw_prediction at 1. rewrite (split_without _ _ Hd).
  unfold last_item. simpl List.last. rewrite raw_prediction_stripped.
  apply lower_idempotent.
Qed.

(** X1.  The text the scan receives is in normal form: it has no blank at
    either end, no capital letter and no delimiter, and normalising it again
    changes nothing. *)
Theorem raw_prediction_normal_form (result : string) :
  strip (raw_prediction result) = raw_prediction result /\
  lower (raw_prediction result) = raw_prediction result /\
  contains delimiter (raw_prediction result) = false /\
  raw_prediction (raw_prediction result) = raw_prediction result.
Proof.
  split; [apply raw_prediction_stripped|].
  split; [unfold raw_prediction; apply lower_idempotent|].
  split; [unfold raw_prediction; apply contains_delimiter_lower|].
  apply raw_prediction_fixed.
Qed.

(** X2.  The whole extraction is idempotent: a prediction fed back as a
    generated text is predicted as itself. *)
Theorem predict_idempotent (result : string) :
  predict (predict result) = predict result.
Proof.
  assert (predict result = scan regimes (raw_prediction result)) as H
    by reflexivity.
  destruct (scan_first regimes (raw_prediction result))
    as [(i & first & Hi & Hs & _)|[E Hn]].
  - rewrite H, Hs. apply (labels_fixed first).
    apply list_elem_of_lookup. exists i. exact Hi.
  - rewrite H, E. unfold predict, extract_label.
    rewrite raw_prediction_fixed. exact E.
Qed.

End Normalisation.


(** ** What the scan finds *)

Section Found.

Import PyStr Regime.

Lemma prefix_contains (needle hay : string) :
  String.prefix needle hay = true -> contains needle hay = true.
Proof.
  intros H. destruct hay as [|c hay].
  - destruct needle; [reflexivity|discriminate H].
  - rewrite contains_cons, H. reflexivity.
Qed.

Lemma contains_nil (needle : string) :
  contains needle EmptyString = true -> needle = EmptyString.
Proof. destruct needle; [reflexivity|discriminate]. Qed.

(** An occurrence that starts with no blank survives [lstrip]. *)
Lemma contains_lstrip (c : ascii) (needle hay : string) :
  isspace c = false ->
  contains (String c needle) hay = true ->
  contains (String c needle) (lstrip hay) = true.
Proof.
  intros Hc. induction hay as [|d hay IH]; intros H; [exact H|].
  simpl lstrip. destruct (isspace d) eqn:Hd; [|exact H].
  apply IH. rewrite contains_cons in H. apply orb_true_iff in H as [H|H]; [|exact H].
  apply prefix_cons in H as [-> _]. congruence.
Qed.

(** An occurrence that ends with no blank survives [rstrip]. *)
Lemma prefix_rstrip (needle hay : string) :
  needle <> EmptyString -> rstrip needle = needle ->
  String.prefix needle hay = true ->
  String.prefix needle (rstrip hay) = true.
Proof.
  revert hay. induction needle as [|c needle IH]; intros hay Hne Hr Hp;
    [contradiction|].
  destruct hay as [|d hay]; [discriminate Hp|].
  apply prefix_cons in Hp as [<- Hp].
  simpl in Hr. destruct needle as [|e needle].
  - simpl in Hr. destruct (isspace c) eqn:Hc; [discriminate Hr|].
    simpl. destruct (rstrip hay); rewrite ?Hc; apply prefix_cons;
      (split; [reflexivity|apply prefix_nil]).
  - destruct (rstrip (String e needle)) as [|f q] eqn:Hq.
    + destruct (isspace c); discriminate Hr.
    + injection Hr as Hr.
      assert (String.prefix (String e needle) (rstrip hay) = true) as Hp'.
      { apply IH; [discriminate|congruence|exact Hp]. }
      change (rstrip (String c hay))
        with (match rstrip hay with
              | EmptyString => if isspace c then EmptyString else String c EmptyString
              | r => String c r
              end).
      destruct (rstrip hay) as [|g r]; [discriminate Hp'|].
      apply prefix_cons. split; [reflexivity|exact Hp'].
Qed.

Lemma contains_rstrip (needle hay : string) :
  needle <> EmptyString -> rstrip needle = needle ->
  contains needle hay = true ->
  contains needle (rstrip hay) = true.
Proof.
  intros Hne Hr. induction hay as [|d hay IH]; intros H.
  - apply contains_nil in H. contradiction.
  - rewrite contains_cons in H. apply orb_true_iff in H as [H|H].
    + apply prefix_contains, prefix_rstrip; assumption.
    + specialize (IH H).
      change (rstrip (String d hay))
        with (match rstrip hay with
              | EmptyString => if isspace d then EmptyString else String d EmptyString
              | r => String d r
              end).
      destruct (rstrip hay) as [|g r].
      * apply contains_nil in IH. contradiction.
      * rewrite contains_cons, IH. apply orb_true_r.
Qed.

(** A text with no blank at either end occurs in the stripped text as soon
    as it occurs in the text. *)
Lemma contains_strip (c : ascii) (needle hay : string) :
  isspace c = false -> rstrip (String c needle) = String c needle ->
  contains (String c needle) hay = true ->
  contains (String c needle) (strip hay) = true.
Proof.
  intros Hc Hr H. unfold strip.
  apply contains_rstrip; [discriminate|exact Hr|].
  apply contains_lstrip; assumption.
Qed.

Lemma contains_lower (needle hay : string) :
  contains needle hay = true -> contains (lower needle) (lower hay) = true.
Proof.
  intros H. apply contains_elim in H as (a & b & ->).
  rewrite !lower_append. apply contains_intro.
Qed.

(** A label written in any letter case in the text is found, in small
    letters, in the normalised text. *)
Lemma label_survives (label spelling t : string) :
  label ∈ regimes -> lower spelling = label ->
  contains spelling t = true ->
  contains label (lower (strip t)) = true.
Proof.
  intros Hin Hl Hc. rewrite lower_strip.
  apply contains_lower in Hc. rewrite Hl in Hc. clear Hl.
  unfold regimes in Hin.
  repeat (apply elem_of_cons in Hin as [->|Hin];
          [apply contains_strip; [reflexivity|reflexivity|exact Hc]|]).
  inversion Hin.
Qed.

(** X3.  The prediction is a given label exactly when that label occurs in
    the scanned text and no label that precedes it in the order bull, bear,
    sideways, high-volatility does. *)
Theorem predict_label_iff (result label : string) (i : nat) :
  regimes !! i = Some label ->
  predict result = label <->
  contains label (raw_prediction result) = true /\
  forall j other, j < i -> regimes !! j = Some other ->
                  contains other (raw_prediction result) = false.
Proof.
  intros Hi.
  assert (predict result = scan regimes (raw_prediction result)) as H
    by reflexivity.
  assert (NoDup regimes) as Hnd.
  { apply (bool_decide_unpack _). vm_compute. exact I. }
  destruct (scan_first regimes (raw_prediction result))
    as [(k & first & Hk & Hs & Hc & Hb)|[E Hn]]; rewrite H.
  - rewrite Hs. split.
    + intros ->. assert (k = i) as -> by (eapply NoDup_lookup; eassumption).
      split; assumption.
    + intros [Hc' Hb'].
      destruct (Nat.lt_trichotomy i k) as [Hlt|[->|Hgt]].
      * rewrite (Hb i label Hlt Hi) in Hc'. discriminate Hc'.
      * congruence.
      * rewrite (Hb' k first Hgt Hk) in Hc. discriminate Hc.
  - rewrite E. assert (label ∈ regimes) as Hin
      by (apply list_elem_of_lookup; exists i; exact Hi).
    split.
    + intros Heq. pose proof (Hn label Hin) as Hc. rewrite Heq in Hc.
      pose proof (contains_intro label EmptyString EmptyString) as Hs.
      rewrite append_nil_l, append_nil_r in Hs. congruence.
    + intros [Hc _]. rewrite (Hn label Hin) in Hc. discriminate Hc.
Qed.

(** The answer names both bear and bull, so the prediction is not bear. *)
Lemma predict_label_iff_witness :
  predict ("[INST] which? [/INST] Bearish, then BULL" +:+ nl) = "bear" <->
  contains "bear" (raw_prediction ("[INST] which? [/INST] Bearish, then BULL" +:+ nl)) = true /\
  forall j other, j < 1 -> regimes !! j = Some other ->
    contains other (raw_prediction ("[INST] which? [/INST] Bearish, then BULL" +:+ nl)) = false.
Proof.
  apply (predict_label_iff ("[INST] which? [/INST] Bearish, then BULL" +:+ nl) "bear" 1).
  reflexivity.
Defined.

(** X4.  When the decoded text is a prompt that ends with the delimiter
    followed by an answer without delimiter, the prediction depends on the
    answer alone: the labels the directive of the prompt names are never
    scanned. *)
Theorem predict_ignores_prompt (prompt answer : string) :
  endswith prompt delimiter = true ->
  contains delimiter answer = false ->
  raw_prediction (prompt +:+ answer) = lower (strip answer) /\
  predict (prompt +:+ answer) = extract_label (lower (strip answer)).
Proof.
  intros He Ha. apply endswith_elim in He as [before ->].
  assert (raw_prediction ((before +:+ delimiter) +:+ answer) = lower (strip answer)) as E.
  { apply raw_prediction_tail. right. exists before.
    split; [apply append_assoc|exact Ha]. }
  split; [exact E|]. unfold predict. rewrite E. reflexivity.
Qed.

Lemma predict_ignores_prompt_witness :
  raw_prediction (test_prompt (TestCase "RSI: 30" "bear") +:+ " Bear market.") =
  lower (strip " Bear market.") /\
  predict (test_prompt (TestCase "RSI: 30" "bear") +:+ " Bear market.") =
  extract_label (lower (strip " Bear market.")).
Proof.
  apply (predict_ignores_prompt (test_prompt (TestCase "RSI: 30" "bear")) " Bear market.");
    vm_compute; reflexivity.
Defined.

(** X5.  Letter case and surrounding blanks do not hide a label: if some
    spelling of a label occurs in the text after the last delimiter, the
    prediction is one of the four labels. *)
Theorem predict_finds_any_spelling (result t label spelling : string) :
  after_last_delimiter result t ->
  label ∈ regimes -> lower spelling = label ->
  contains spelling t = true ->
  predict result ∈ regimes /\
  contains (predict result) (lower (strip t)) = true.
Proof.
  intros Ht Hin Hl Hc.
  pose proof (label_survives label spelling t Hin Hl Hc) as Hs.
  rewrite <- (raw_prediction_tail result t Ht) in *.
  assert (predict result = scan regimes (raw_prediction result)) as H
    by reflexivity.
  destruct (scan_first regimes (raw_prediction result))
    as [(k & first & Hk & Hf & Hcf & _)|[_ Hn]].
  - rewrite H, Hf. split; [|exact Hcf].
    apply list_elem_of_lookup. exists k. exact Hk.
  - rewrite (Hn label Hin) in Hs. discriminate Hs.
Qed.

Lemma predict_finds_any_spelling_witness :
  predict ("x [/INST]  SideWays drift ") ∈ regimes /\
  contains (predict ("x [/INST]  SideWays drift ")) (lower (strip "  SideWays drift ")) = true.
Proof.
  apply (predict_finds_any_spelling "x [/INST]  SideWays drift " "  SideWays drift "
           "sideways" "SideWays").
  - right. exists "x ". split; vm_compute; reflexivity.
  - unfold regimes. repeat constructor.
  - vm_compute. reflexivity.
  - vm_compute. reflexivity.
Defined.

(** X6.  When the decoded text holds no delimiter at all, the whole text
    is scanned, the prompt included: a text that repeats the directive,
    which names bull first, is always predicted as bull. *)
Theorem predict_without_delimiter (result : string) :
  contains delimiter result = false ->
  contains directive result = true ->
  predict result = "bull".
Proof.
  intros Hd Hc.
  assert (contains "bull" result = true) as Hb.
  { apply contains_elim in Hc as (a & b & ->).
    change directive
      with ("Classify the market regime as one of: " +:+ "bull" +:+
            ", bear, sideways, or high-volatility").
    rewrite !append_assoc, <- (append_assoc a). apply contains_intro. }
  assert (after_last_delimiter result result) as Ht by (left; split; [exact Hd|reflexivity]).
  assert (contains "bull" (raw_prediction result) = true) as Hr.
  { rewrite (raw_prediction_tail result result Ht).
    apply (label_survives "bull" "bull"); [unfold regimes; repeat constructor|reflexivity|exact Hb]. }
  unfold predict, extract_label, regimes. simpl scan. rewrite Hr. reflexivity.
Qed.

Lemma predict_without_delimiter_witness :
  predict ("Analyze: " +:+ directive +:+ " I would say bear.") = "bull".
Proof.
  apply (predict_without_delimiter ("Analyze: " +:+ directive +:+ " I would say bear."));
    vm_compute; reflexivity.
Defined.

End Found.


(** ** Records that cannot be formatted *)

Section BadRecords.

Import PyStr.

Lemma traverse_app_raise {A B : Type} (f : A -> result B)
    (good : list A) (bad : A) (rest : list A) (e : exn) :
  Forall (fun x => exists y, f x = Ok y) good ->
  f bad = Raise e ->
  traverse f (good ++ bad :: rest) = Raise e.
Proof.
  intros Hgood Hbad. induction Hgood as [|x good [y Hy] _ IH].
  - simpl. rewrite Hbad. reflexivity.
  - change ((x :: good) ++ bad :: rest) with (x :: (good ++ bad :: rest)).
    rewrite traverse_cons, Hy, IH. reflexivity.
Qed.

(** The first of the [fields] that the dictionary [d] lacks. *)
Lemma first_missing (fields : list string) (d : gmap string json) (key : string) :
  key ∈ fields -> d !! key = None ->
  exists i k, fields !! i = Some k /\ d !! k = None /\
              forall j k', j < i -> fields !! j = Some k' -> is_Some (d !! k').
Proof.
  induction fields as [|f fields IH]; intros Hin Hnone; [inversion Hin|].
  destruct (d !! f) as [v|] eqn:Ef.
  - apply elem_of_cons in Hin as [->|Hin]; [congruence|].
    destruct (IH Hin Hnone) as (i & k & Hi & Hk & Hb).
    exists (S i), k. repeat split; try assumption.
    intros [|j] k' Hj Hk'; simpl in Hk'.
    + injection Hk' as <-. rewrite Ef. eexists; reflexivity.
    + apply (Hb j); [lia|exact Hk'].
  - exists 0, f. repeat split; try assumption. intros j k' Hj. lia.
Qed.

(** X7.  A regime record that lacks one of the fields [instruction],
    [input], [output] is never rendered: [format_prompt] raises [KeyError]
    for the first of the three, in that order, that the record lacks. *)
Theorem format_prompt_missing_field (w : world) (d : gmap string json)
    (key : string) :
  key ∈ ["instruction"; "input"; "output"] -> d !! key = None ->
  exists i k,
    ["instruction"; "input"; "output"] !! i = Some k /\
    d !! k = None /\
    (forall j k', j < i -> ["instruction"; "input"; "output"] !! j = Some k' ->
                  is_Some (d !! k')) /\
    Regime.format_prompt w (JDict d) = Raise (KeyError k).
Proof.
  intros Hin Hnone.
  destruct (first_missing _ d key Hin Hnone) as (i & k & Hi & Hk & Hb).
  exists i, k. repeat split; try assumption.
  unfold Regime.format_prompt, getitem.
  destruct i as [|[|[|i]]]; simpl in Hi; try discriminate Hi; injection Hi as <-.
  - rewrite Hk. reflexivity.
  - destruct (Hb 0 "instruction") as [v ->]; [lia|reflexivity|].
    simpl. rewrite Hk. reflexivity.
  - destruct (Hb 0 "instruction") as [v ->]; [lia|reflexivity|].
    destruct (Hb 1 "input") as [v' ->]; [lia|reflexivity|].
    simpl. rewrite Hk. reflexivity.
Qed.

Lemma format_prompt_missing_field_witness :
  exists i k,
    ["instruction"; "input"; "output"] !! i = Some k /\
    ({[ "instruction" := JStr "Classify"; "output" := JStr "bull" ]}
       : gmap string json) !! k = None /\
    (forall j k', j < i -> ["instruction"; "input"; "output"] !! j = Some k' ->
                  is_Some (({[ "instruction" := JStr "Classify"; "output" := JStr "bull" ]}
                              : gmap string json) !! k')) /\
    Regime.format_prompt Scenario.demo
      (JDict {[ "instruction" := JStr "Classify"; "output" := JStr "bull" ]}) =
    Raise (KeyError k).
Proof.
  apply (format_prompt_missing_field Scenario.demo
           {[ "instruction" := JStr "Classify"; "output" := JStr "bull" ]} "input").
  - repeat constructor.
  - reflexivity.
Defined.

Lemma missing_input_field :
  Regime.format_prompt Scenario.demo
    (JDict {[ "instruction" := JStr "Classify"; "output" := JStr "bull" ]}) =
  Raise (KeyError "input").
Proof. vm_compute. reflexivity. Qed.

(** A value that is not a dictionary cannot be subscripted by a field. *)
Lemma format_prompt_not_a_record (w : world) (v : json) :
  (forall d, v <> JDict d) -> Regime.format_prompt w v = Raise TypeError.
Proof.
  intros H. destruct v; try reflexivity. exfalso. apply (H d). reflexivity.
Qed.

(** X8.  [prepare_examples] stops at the first record that lacks a field:
    when the records before it have their three fields, the run raises
    [KeyError] for the first of [anchor], [positive], [negative] that the
    record lacks, returns no example and does not print the count. *)
Theorem prepare_examples_missing_field (good rest : list json)
    (d : gmap string json) (key : string) (log : list event) :
  Forall (fun item => exists a p n, has_triple item a p n) good ->
  key ∈ ["anchor"; "positive"; "negative"] -> d !! key = None ->
  exists i k,
    ["anchor"; "positive"; "negative"] !! i = Some k /\
    d !! k = None /\
    (forall j k', j < i -> ["anchor"; "positive"; "negative"] !! j = Some k' ->
                  is_Some (d !! k')) /\
    Embedding.prepare_examples (JList (good ++ JDict d :: rest)) log =
    (log ++ [Enter "prepare_examples"], Raise (KeyError k)).
Proof.
  intros Hgood Hin Hnone.
  destruct (first_missing _ d key Hin Hnone) as (i & k & Hi & Hk & Hb).
  exists i, k. repeat split; try assumption.
  rewrite prepare_examples_run.
  rewrite (traverse_app_raise Embedding.make_example good (JDict d) rest (KeyError k)).
  - reflexivity.
  - eapply Forall_impl; [exact Hgood|]. intros item (a & p & n & H).
    eexists. apply make_example_triple, H.
  - unfold Embedding.make_example, getitem.
    destruct i as [|[|[|i]]]; simpl in Hi; try discriminate Hi; injection Hi as <-.
    + rewrite Hk. reflexivity.
    + destruct (Hb 0 "anchor") as [v ->]; [lia|reflexivity|].
      simpl. rewrite Hk. reflexivity.
    + destruct (Hb 0 "anchor") as [v ->]; [lia|reflexivity|].
      destruct (Hb 1 "positive") as [v' ->]; [lia|reflexivity|].
      simpl. rewrite Hk. reflexivity.
Qed.

Lemma prepare_examples_missing_field_witness :
  exists i k,
    ["anchor"; "positive"; "negative"] !! i = Some k /\
    ({[ "anchor" := JStr "BTC dip" ]} : gmap string json) !! k = None /\
    (forall j k', j < i -> ["anchor"; "positive"; "negative"] !! j = Some k' ->
                  is_Some (({[ "anchor" := JStr "BTC dip" ]} : gmap string json) !! k')) /\
    Embedding.prepare_examples
      (JList ([Scenario.embedding_record] ++ JDict {[ "anchor" := JStr "BTC dip" ]} :: []))
      [] =
    ([] ++ [Enter "prepare_examples"], Raise (KeyError k)).
Proof.
  apply (prepare_examples_missing_field [Scenario.embedding_record] []
           {[ "anchor" := JStr "BTC dip" ]} "negative" []).
  - repeat constructor.
    exists (JStr "BTC surge"), (JStr "Bitcoin rally"), (JStr "ETH crash").
    eexists. repeat split; reflexivity.
  - repeat constructor.
  - reflexivity.
Defined.

(** X9.  [prepare_examples] does not check that the document is an array.
    Any other document but the empty object and the empty text makes it
    raise [TypeError] before an example is built: a number, a boolean or
    [null] cannot be iterated, and the keys of an object and the characters
    of a text cannot be subscripted by a field name. *)
Theorem prepare_examples_not_an_array (data : json) (log : list event) :
  (forall l, data <> JList l) ->
  data <> JDict ∅ -> data <> JStr EmptyString ->
  Embedding.prepare_examples data log =
  (log ++ [Enter "prepare_examples"], Raise TypeError).
Proof.
  intros Hl Hd Hs.
  unfold Embedding.prepare_examples, py_iter, emit, lift, print.
  unfold mbind, run_bind, result_bind, mret, run_ret.
  destruct data as [| | | |s|l|d]; try reflexivity.
  - destruct s as [|c s]; [contradiction|]. reflexivity.
  - exfalso. apply (Hl l). reflexivity.
  - destruct (map_to_list d) as [|[k v] kvs] eqn:E.
    + apply map_to_list_empty_iff in E. subst d. contradiction.
    + reflexivity.
Qed.

(** The file holds one record, not an array of records. *)
Lemma prepare_examples_not_an_array_witness :
  Embedding.prepare_examples Scenario.embedding_record [] =
  ([] ++ [Enter "prepare_examples"], Raise TypeError).
Proof.
  apply (prepare_examples_not_an_array Scenario.embedding_record []).
  - intros l. discriminate.
  - intros E.
    apply (f_equal (fun v => match v with
                             | JDict m => m !! "anchor"
                             | _ => None
                             end)) in E.
    vm_compute in E. discriminate E.
  - discriminate.
Defined.

Lemma prepare_examples_empty_documents (log : list event) :
  Embedding.prepare_examples (JList []) log =
  (log ++ [Enter "prepare_examples"; Print "Prepared 0 training examples"], Ok []) /\
  Embedding.prepare_examples (JDict ∅) log =
  (log ++ [Enter "prepare_examples"; Print "Prepared 0 training examples"], Ok []).
Proof.
  split.
  - rewrite prepare_examples_run. reflexivity.
  - unfold Embedding.prepare_examples, py_iter, emit, lift, print.
    unfold mbind, run_bind, result_bind, mret, run_ret.
    rewrite map_to_list_empty. simpl. rewrite <- app_assoc. reflexivity.
Qed.

End BadRecords.


(** ** [prepare_dataset] *)

Section Dataset.

Import PyStr.

Lemma format_prompt_call_run (w : world) (ex : json) (log : list event) :
  Regime.format_prompt_call w ex log =
  (log ++ [Enter "format_prompt"], Regime.format_prompt w ex).
Proof. reflexivity. Qed.

(** The comprehension enters [format_prompt] once per record until one
    fails, and collects what [format_prompt] returns. *)
Lemma format_all_run (w : world) (data : list json) (log : list event) :
  exists k,
    k <= length data /\
    Regime.format_all w data log =
    (log ++ replicate k (Enter "format_prompt"),
     traverse (Regime.format_prompt w) data) /\
    (forall texts, traverse (Regime.format_prompt w) data = Ok texts ->
                   k = length data) /\
    (forall good bad rest e,
        data = good ++ bad :: rest ->
        Forall (fun ex => exists t, Regime.format_prompt w ex = Ok t) good ->
        Regime.format_prompt w bad = Raise e -> k = S (length good)).
Proof.
  revert log. induction data as [|ex data IH]; intros log.
  - exists 0. split; [simpl; lia|]. split; [simpl; rewrite app_nil_r; reflexivity|].
    split; [reflexivity|]. intros [|? ?] bad rest e H; discriminate H.
  - cbn [Regime.format_all]. unfold mbind, run_bind.
    rewrite format_prompt_call_run, traverse_cons.
    destruct (Regime.format_prompt w ex) as [text|e] eqn:Eex.
    + destruct (IH (log ++ [Enter "format_prompt"])) as (k & Hk & Hrun & Hok & Hbad).
      exists (S k). split; [simpl; lia|]. split; [|split].
      * rewrite Hrun, <- app_assoc. simpl.
        destruct (traverse _ data); reflexivity.
      * intros texts Ht. destruct (traverse _ data) as [ts|]; [|discriminate Ht].
        simpl. f_equal. apply (Hok ts). reflexivity.
      * intros [|g good] bad rest e Hd Hgood Hb; simpl in Hd; injection Hd as -> ->.
        -- congruence.
        -- simpl. f_equal. apply (Hbad good bad rest e); [reflexivity| |exact Hb].
           apply Forall_cons in Hgood as [_ Hgood]. exact Hgood.
    + exists 1. split; [simpl; lia|]. split; [reflexivity|]. split; [discriminate|].
      intros [|g good] bad rest e' Hd Hgood Hb; simpl in Hd; injection Hd as -> ->.
      * reflexivity.
      * apply Forall_cons in Hgood as [[t Ht] _]. congruence.
Qed.

Lemma prepare_dataset_run (w : world) (data : list json) (log : list event) :
  exists k,
    k <= length data /\
    Regime.prepare_dataset w data log =
    match traverse (Regime.format_prompt w) data with
    | Ok texts =>
        (log ++ Enter "prepare_dataset" :: replicate k (Enter "format_prompt")
             ++ [Lib (Dataset_from_dict texts)],
         if lib_ok w (Dataset_from_dict texts) then Ok texts
         else Raise (LibraryError (Dataset_from_dict texts)))
    | Raise e =>
        (log ++ Enter "prepare_dataset" :: replicate k (Enter "format_prompt"), Raise e)
    end /\
    (forall texts, traverse (Regime.format_prompt w) data = Ok texts ->
                   k = length data) /\
    (forall good bad rest e,
        data = good ++ bad :: rest ->
        Forall (fun ex => exists t, Regime.format_prompt w ex = Ok t) good ->
        Regime.format_prompt w bad = Raise e -> k = S (length good)).
Proof.
  destruct (format_all_run w data (log ++ [Enter "prepare_dataset"]))
    as (k & Hk & Hrun & Hok & Hbad).
  exists k. split; [exact Hk|]. split; [|split; assumption].
  unfold Regime.prepare_dataset, emit, lib. unfold mbind, run_bind, mret, run_ret.
  rewrite Hrun. destruct (traverse _ data) as [texts|e].
  - rewrite <- !app_assoc. simpl. destruct (lib_ok w _); reflexivity.
  - rewrite <- !app_assoc. reflexivity.
Qed.

(** X10.  When every record can be rendered and the dataset library accepts
    the texts, [prepare_dataset] renders each record once, in order, hands
    exactly the rendered prompts to [Dataset.from_dict] and returns them: one
    text per record, the i-th text being [format_prompt] of the i-th
    record. *)
Theorem prepare_dataset_renders_every_record (w : world) (data : list json)
    (log : list event) :
  Forall (fun ex => exists text, Regime.format_prompt w ex = Ok text) data ->
  (forall texts, lib_ok w (Dataset_from_dict texts) = true) ->
  exists texts,
    Regime.prepare_dataset w data log =
    (log ++ Enter "prepare_dataset" :: replicate (length data) (Enter "format_prompt")
         ++ [Lib (Dataset_from_dict texts)],
     Ok texts) /\
    length texts = length data /\
    Forall2 (fun ex text => Regime.format_prompt w ex = Ok text) data texts.
Proof.
  intros Hall Hlib.
  destruct (traverse_total (Regime.format_prompt w) data Hall) as [texts Ht].
  destruct (prepare_dataset_run w data log) as (k & _ & Hrun & Hok & _).
  exists texts. rewrite Hrun, Ht, (Hok texts Ht), Hlib.
  apply traverse_ok in Ht.
  split; [reflexivity|]. split; [symmetry; eapply Forall2_length, Ht|exact Ht].
Qed.

Lemma prepare_dataset_renders_every_record_witness :
  exists texts,
    Regime.prepare_dataset Scenario.demo [Scenario.regime_record; Scenario.regime_record] [] =
    ([] ++ Enter "prepare_dataset" :: replicate 2 (Enter "format_prompt")
        ++ [Lib (Dataset_from_dict texts)],
     Ok texts) /\
    length texts = 2 /\
    Forall2 (fun ex text => Regime.format_prompt Scenario.demo ex = Ok text)
            [Scenario.regime_record; Scenario.regime_record] texts.
Proof.
  apply (prepare_dataset_renders_every_record Scenario.demo
           [Scenario.regime_record; Scenario.regime_record] []).
  - repeat constructor; eexists; reflexivity.
  - reflexivity.
Defined.

(** X11.  [prepare_dataset] stops at the first record that cannot be
    rendered: [format_prompt] is entered for the records before it and for
    it, the exception of that record ends the run, and [Dataset.from_dict] is
    never called. *)
Theorem prepare_dataset_stops_at_bad_record (w : world)
    (good : list json) (bad : json) (rest : list json) (e : exn)
    (log : list event) :
  Forall (fun ex => exists text, Regime.format_prompt w ex = Ok text) good ->
  Regime.format_prompt w bad = Raise e ->
  Regime.prepare_dataset w (good ++ bad :: rest) log =
  (log ++ Enter "prepare_dataset" :: replicate (S (length good)) (Enter "format_prompt"),
   Raise e) /\
  lib_calls (Enter "prepare_dataset" :: replicate (S (length good)) (Enter "format_prompt")) = [].
Proof.
  intros Hgood Hbad.
  destruct (prepare_dataset_run w (good ++ bad :: rest) log) as (k & _ & Hrun & _ & Hk).
  rewrite Hrun, (traverse_app_raise _ good bad rest e Hgood Hbad).
  rewrite (Hk good bad rest e eq_refl Hgood Hbad). split; [reflexivity|].
  unfold lib_calls. generalize (S (length good)) as n.
  induction n as [|n IH]; [reflexivity|]. exact IH.
Qed.

Lemma prepare_dataset_stops_at_bad_record_witness :
  Regime.prepare_dataset Scenario.demo
    ([Scenario.regime_record] ++ Scenario.embedding_record :: [Scenario.regime_record]) [] =
  ([] ++ Enter "prepare_dataset" :: replicate 2 (Enter "format_prompt"),
   Raise (KeyError "instruction")) /\
  lib_calls (Enter "prepare_dataset" :: replicate 2 (Enter "format_prompt")) = [].
Proof.
  apply (prepare_dataset_stops_at_bad_record Scenario.demo
           [Scenario.regime_record] Scenario.embedding_record [Scenario.regime_record]
           (KeyError "instruction") []).
  - repeat constructor; eexists; reflexivity.
  - reflexivity.
Defined.

End Dataset.


(** ** The order of the library calls of [train] *)

Section Protocol.

Import PyStr.

Lemma lib_calls_app (l k : list event) :
  lib_calls (l ++ k) = lib_calls l ++ lib_calls k.
Proof. apply omap_app. Qed.

Lemma lib_calls_enter (n : nat) (m : string) :
  lib_calls (replicate n (Enter m)) = [].
Proof. induction n as [|n IH]; [reflexivity|exact IH]. Qed.

Lemma lib_calls_cons_enter (m : string) (l : list event) :
  lib_calls (Enter m :: l) = lib_calls l.
Proof. reflexivity. Qed.

(** The regime loader, whatever the file. *)
Lemma regime_loader_cases (w : world) (path : string) (log : list event) :
  exists added r,
    Regime.load_training_data w path log = (log ++ added, r) /\
    lib_calls added = [].
Proof.
  destruct (files w !! path) as [text|] eqn:Hf.
  - rewrite (regime_loader_run w path text log Hf).
    destruct (traverse _ _); eexists _, _; split; reflexivity.
  - rewrite (regime_loader_missing w path log Hf).
    eexists _, _; split; reflexivity.
Qed.

Lemma embedding_loader_cases (w : world) (path : string) (log : list event) :
  exists r,
    Embedding.load_training_data w path log =
    (log ++ [Enter "load_training_data"; Open path], r).
Proof.
  destruct (files w !! path) as [text|] eqn:Hf.
  - rewrite (embedding_loader_run w path text log Hf). eexists; reflexivity.
  - rewrite (embedding_loader_missing w path log Hf). eexists; reflexivity.
Qed.

Lemma prepare_examples_cases (data : json) (log : list event) :
  exists added r,
    Embedding.prepare_examples data log = (log ++ added, r) /\
    lib_calls added = [].
Proof.
  unfold Embedding.prepare_examples, emit, lift, print.
  unfold mbind, run_bind, mret, run_ret.
  destruct (result_bind _ _ _ _) as [examples|e].
  - unfold emit. rewrite <- app_assoc. eexists _, _; split; reflexivity.
  - eexists _, _; split; reflexivity.
Qed.

Lemma lib_calls_cons (ev : event) (l : list event) :
  lib_calls (ev :: l) =
  match ev with Lib c => [c] | _ => [] end ++ lib_calls l.
Proof. destruct ev; reflexivity. Qed.

Lemma lib_calls_nil : lib_calls [] = [].
Proof. reflexivity. Qed.

Ltac calls_in H :=
  repeat (rewrite lib_calls_cons in H || rewrite lib_calls_app in H
          || rewrite lib_calls_nil in H);
  repeat match type of H with
         | context [lib_calls ?l] =>
             match goal with E : lib_calls l = [] |- _ => rewrite E in H end
         end;
  cbv beta iota in H; simpl app in H.

Ltac calls_goal :=
  repeat (rewrite lib_calls_cons || rewrite lib_calls_app || rewrite lib_calls_nil);
  repeat match goal with
         | E : lib_calls ?l = [] |- context [lib_calls ?l] => rewrite E
         end;
  cbv beta iota; simpl app.

Ltac not_called H :=
  repeat (apply elem_of_cons in H as [H|H]; [discriminate H|]);
  apply elem_of_nil in H; contradiction.

(** Every run of the embedding trainer, case by case. *)
Lemma embedding_train_cases (w : world) (self : Embedding.trainer)
    (path : string) (epochs batch_size warmup_steps : Z) :
  exists trace r n,
    Embedding.train w self path epochs batch_size warmup_steps [] = (trace, r) /\
    lib_calls trace `prefix_of`
      embedding_calls self n epochs batch_size warmup_steps /\
    (forall self', r = Ok self' ->
       lib_calls trace = embedding_calls self n epochs batch_size warmup_steps /\
       Forall (fun c => lib_ok w c = true)
              (embedding_calls self n epochs batch_size warmup_steps) /\
       self' = Embedding.Trainer (Embedding.base_model self)
                 (Embedding.output_dir self) (Some (Embedding.base_model self))) /\
    (forall n', DataLoader_new n' batch_size ∈ lib_calls trace ->
       exists text data examples log1 log2,
         files w !! path = Some text /\
         json_loads w (universal_newlines text) = Some data /\
         Embedding.prepare_examples data log1 = (log2, Ok examples) /\
         n' = length examples).
Proof.
  unfold Embedding.train. run_steps.
  destruct (lib_ok w (SentenceTransformer_new _)) eqn:Hst; simpl.
  2:{ eexists _, _, 0. split; [reflexivity|]. cbn.
      split; [eexists; reflexivity|]. split; [discriminate|].
      intros n' H. not_called H. }
  destruct (files w !! path) as [text|] eqn:Hf.
  2:{ rewrite (embedding_loader_missing w path _ Hf).
      eexists _, _, 0. split; [reflexivity|]. cbn.
      split; [eexists; reflexivity|]. split; [discriminate|].
      intros n' H. not_called H. }
  rewrite (embedding_loader_run w path text _ Hf).
  destruct (json_loads w _) as [data|] eqn:Hj.
  2:{ eexists _, _, 0. split; [reflexivity|]. cbn.
      split; [eexists; reflexivity|]. split; [discriminate|].
      intros n' H. not_called H. }
  match goal with
  | |- context [Embedding.prepare_examples data ?log] =>
      destruct (prepare_examples_cases data log) as (added & r & Hp & Hc)
  end.
  rewrite Hp. destruct r as [examples|e].
  2:{ eexists _, _, 0. split; [reflexivity|]. calls_goal.
      split; [eexists; reflexivity|]. split; [discriminate|].
      intros n' H. calls_in H. not_called H. }
  destruct (lib_ok w (DataLoader_new _ _)) eqn:Hdl; simpl;
    [destruct (lib_ok w TripletLoss_new) eqn:Htl; simpl;
     [destruct (lib_ok w (SentenceTransformer_fit _ _ _)) eqn:Hfit; simpl|]|];
    (eexists _, _, (length examples); split; [reflexivity|]; calls_goal;
     split; [eexists; reflexivity|];
     split;
     [first [discriminate
            |intros self' E; injection E as <-;
             split; [reflexivity|]; split; [|reflexivity];
             repeat (apply Forall_cons; split; [assumption|]); apply Forall_nil; exact I]
     |intros n' H; calls_in H;
      apply elem_of_cons in H as [H|H]; [discriminate H|];
      apply elem_of_cons in H as [H|H]; [|not_called H];
      injection H as ->; eexists text, data, examples, _, _;
      repeat split; eassumption]).
Qed.

Ltac early_leaf :=
  eexists _, _, []; split; [reflexivity|]; calls_goal;
  split; [eexists; reflexivity|];
  split; [discriminate|];
  split; [intros texts' H; calls_in H; not_called H
         |intros d H; calls_in H; not_called H].

Ltac late_leaf texts :=
  eexists _, _, texts; split; [reflexivity|]; calls_goal;
  split; [eexists; reflexivity|];
  split;
  [first [discriminate
         |intros self' E; injection E as <-;
          split; [reflexivity|]; split; [|reflexivity];
          repeat (apply Forall_cons; split; [assumption|]); apply Forall_nil; exact I]
  |];
  split;
  [intros texts' H; calls_in H;
   repeat (apply elem_of_cons in H as [H|H];
           [first [discriminate H
                  |injection H as ->; eexists _, _; repeat split; eassumption]|]);
   apply elem_of_nil in H; contradiction
  |intros d H; calls_in H;
   repeat (apply elem_of_cons in H as [H|H];
           [first [discriminate H
                  |split; [first [assumption|reflexivity]|calls_goal; repeat constructor]]|]);
   apply elem_of_nil in H; contradiction].

(** Every run of the regime trainer, case by case. *)
Lemma regime_train_cases (w : world) (self : Regime.trainer)
    (path : string) (epochs batch_size : Z) :
  exists trace r texts,
    Regime.train w self path epochs batch_size [] = (trace, r) /\
    lib_calls trace `prefix_of` regime_calls self texts epochs batch_size /\
    (forall self', r = Ok self' ->
       lib_calls trace = regime_calls self texts epochs batch_size /\
       Forall (fun c => lib_ok w c = true)
              (regime_calls self texts epochs batch_size) /\
       self' = Regime.Trainer (Regime.model_name self) (Regime.output_dir self)
                 (Some (Regime.model_name self)) (Some (Regime.model_name self))) /\
    (forall texts', Dataset_from_dict texts' ∈ lib_calls trace ->
       exists text data,
         files w !! path = Some text /\
         traverse (Regime.decode_line w) (readlines (universal_newlines text)) = Ok data /\
         traverse (Regime.format_prompt w) data = Ok texts') /\
    (forall d, Model_save_pretrained d ∈ lib_calls trace ->
               lib_ok w Trainer_train = true /\ Trainer_train ∈ lib_calls trace).
Proof.
  unfold Regime.train, Regime.tokenize_dataset. run_steps.
  destruct (lib_ok w (AutoModelForCausalLM_from_pretrained _)) eqn:Hm; simpl;
    [|early_leaf].
  destruct (lib_ok w (AutoTokenizer_from_pretrained _)) eqn:Hk; simpl;
    [|early_leaf].
  destruct (files w !! path) as [text|] eqn:Hf;
    [|rewrite (regime_loader_missing w path _ Hf); early_leaf].
  rewrite (regime_loader_run w path text _ Hf).
  destruct (traverse (Regime.decode_line w) _) as [data|e] eqn:Hd; [|early_leaf].
  match goal with
  | |- context [Regime.prepare_dataset w data ?log] =>
      destruct (prepare_dataset_run w data log) as (k & _ & Hp & _ & _)
  end.
  rewrite Hp. clear Hp.
  assert (lib_calls (replicate k (Enter "format_prompt")) = []) as Hrep
    by apply lib_calls_enter.
  destruct (traverse (Regime.format_prompt w) data) as [texts|e] eqn:Ht;
    [|early_leaf].
  destruct (lib_ok w (Dataset_from_dict texts)) eqn:H1; simpl; [|late_leaf texts].
  destruct (lib_ok w Dataset_map_tokenize) eqn:H2; simpl; [|late_leaf texts].
  destruct (lib_ok w (TrainingArguments_new _ _ _)) eqn:H3; simpl; [|late_leaf texts].
  destruct (lib_ok w DataCollatorForLanguageModeling_new) eqn:H4; simpl;
    [|late_leaf texts].
  destruct (lib_ok w Trainer_new) eqn:H5; simpl; [|late_leaf texts].
  destruct (lib_ok w Trainer_train) eqn:H6; simpl; [|late_leaf texts].
  destruct (lib_ok w (Model_save_pretrained _)) eqn:H7; simpl; [|late_leaf texts].
  destruct (lib_ok w (Tokenizer_save_pretrained _)) eqn:H8; simpl; late_leaf texts.
Qed.

Lemma elem_lib_calls (c : call) (trace : list event) :
  c ∈ lib_calls trace <-> Lib c ∈ trace.
Proof.
  unfold lib_calls. rewrite list_elem_of_omap. split.
  - intros (ev & Hin & Hev). destruct ev; try discriminate Hev.
    injection Hev as ->. exact Hin.
  - intros Hin. exists (Lib c). split; [exact Hin|reflexivity].
Qed.

(** X12.  Whatever the files and the libraries do, the library calls of a run
    of the regime trainer are an initial part of one fixed sequence: model,
    tokenizer, dataset of the rendered prompts, tokenization, training
    arguments, collator, trainer, training, saving the model, saving the
    tokenizer.  A run that returns has made them all, each successfully, and
    leaves the trainer with model and tokenizer set. *)
Theorem regime_train_call_order (w : world) (self : Regime.trainer)
    (path : string) (epochs batch_size : Z) :
  exists trace r texts,
    Regime.train w self path epochs batch_size [] = (trace, r) /\
    lib_calls trace `prefix_of` regime_calls self texts epochs batch_size /\
    (forall self', r = Ok self' ->
       lib_calls trace = regime_calls self texts epochs batch_size /\
       Forall (fun c => lib_ok w c = true)
              (regime_calls self texts epochs batch_size) /\
       self' = Regime.Trainer (Regime.model_name self) (Regime.output_dir self)
                 (Some (Regime.model_name self)) (Some (Regime.model_name self))).
Proof.
  destruct (regime_train_cases w self path epochs batch_size)
    as (trace & r & texts & H1 & H2 & H3 & _).
  exists trace, r, texts. repeat split; try assumption; apply (H3 self'); assumption.
Qed.

(** X13.  The regime trainer saves a model only after the training call
    returned: a trace with a [save_pretrained] of the model has the call of
    [trainer.train()] before it, and that call succeeded. *)
Theorem regime_train_saves_after_training (w : world) (self : Regime.trainer)
    (path : string) (epochs batch_size : Z) (d : string) :
  Lib (Model_save_pretrained d) ∈ (Regime.train w self path epochs batch_size []).1 ->
  lib_ok w Trainer_train = true /\
  Lib Trainer_train ∈ (Regime.train w self path epochs batch_size []).1.
Proof.
  destruct (regime_train_cases w self path epochs batch_size)
    as (trace & r & texts & H1 & _ & _ & _ & H5).
  rewrite H1. simpl. intros H. apply elem_lib_calls in H.
  destruct (H5 d H) as [Hok Hin]. split; [exact Hok|].
  apply elem_lib_calls, Hin.
Qed.

Lemma regime_train_saves_after_training_witness :
  lib_ok Scenario.demo Trainer_train = true /\
  Lib Trainer_train ∈
    (Regime.train Scenario.demo Regime.init Scenario.regime_path 3 2 []).1.
Proof.
  apply (regime_train_saves_after_training Scenario.demo Regime.init
           Scenario.regime_path 3 2 "./models/regime-classifier-v1").
  vm_compute. apply list_elem_of_In. simpl. tauto.
Defined.

(** X14.  The dataset the regime trainer builds holds exactly the prompts of
    the records of the training file: whenever [Dataset.from_dict] is called,
    the file is there, every line of it decoded, every record was rendered,
    and the texts handed over are the rendered prompts, one per line and in
    the order of the lines. *)
Theorem regime_train_dataset_from_file (w : world) (self : Regime.trainer)
    (path : string) (epochs batch_size : Z) (texts : list string) :
  Lib (Dataset_from_dict texts) ∈ (Regime.train w self path epochs batch_size []).1 ->
  exists text data,
    files w !! path = Some text /\
    length texts = length (readlines (universal_newlines text)) /\
    Forall2 (fun line record => json_loads w line = Some record)
            (readlines (universal_newlines text)) data /\
    Forall2 (fun record prompt => Regime.format_prompt w record = Ok prompt)
            data texts.
Proof.
  destruct (regime_train_cases w self path epochs batch_size)
    as (trace & r & texts0 & H1 & _ & _ & H4 & _).
  rewrite H1. simpl. intros H. apply elem_lib_calls in H.
  destruct (H4 texts H) as (text & data & Hf & Hd & Ht).
  apply traverse_ok in Hd. apply traverse_ok in Ht.
  exists text, data. split; [exact Hf|]. split; [|split; [|exact Ht]].
  - rewrite <- (Forall2_length _ _ _ Ht). symmetry. eapply Forall2_length, Hd.
  - eapply Forall2_impl; [exact Hd|]. intros line v Hv. apply decode_line_ok, Hv.
Qed.

Lemma regime_train_dataset_from_file_witness :
  exists text data,
    files Scenario.demo !! Scenario.regime_path = Some text /\
    length ["<s>[INST] Classify" +:+ nl +:+ nl +:+ "RSI: 70" +:+ nl +:+ nl +:+
              Regime.directive +:+ " [/INST] bull</s>";
            "<s>[INST] Classify" +:+ nl +:+ nl +:+ "RSI: 30" +:+ nl +:+ nl +:+
              Regime.directive +:+ " [/INST] bear</s>"] =
    length (readlines (universal_newlines text)) /\
    Forall2 (fun line record => json_loads Scenario.demo line = Some record)
            (readlines (universal_newlines text)) data /\
    Forall2 (fun record prompt => Regime.format_prompt Scenario.demo record = Ok prompt)
            data
            ["<s>[INST] Classify" +:+ nl +:+ nl +:+ "RSI: 70" +:+ nl +:+ nl +:+
               Regime.directive +:+ " [/INST] bull</s>";
             "<s>[INST] Classify" +:+ nl +:+ nl +:+ "RSI: 30" +:+ nl +:+ nl +:+
               Regime.directive +:+ " [/INST] bear</s>"].
Proof.
  apply (regime_train_dataset_from_file Scenario.demo Regime.init
           Scenario.regime_path 3 2).
  vm_compute. apply list_elem_of_In. simpl. tauto.
Defined.

(** X15.  Whatever the files and the libraries do, the library calls of a run
    of the embedding trainer are an initial part of the sequence: base model,
    data loader, triplet loss, fit.  A run that returns has made them all,
    each successfully, and leaves the trainer with its model set. *)
Theorem embedding_train_call_order (w : world) (self : Embedding.trainer)
    (path : string) (epochs batch_size warmup_steps : Z) :
  exists trace r n,
    Embedding.train w self path epochs batch_size warmup_steps [] = (trace, r) /\
    lib_calls trace `prefix_of`
      embedding_calls self n epochs batch_size warmup_steps /\
    (forall self', r = Ok self' ->
       lib_calls trace = embedding_calls self n epochs batch_size warmup_steps /\
       Forall (fun c => lib_ok w c = true)
              (embedding_calls self n epochs batch_size warmup_steps) /\
       self' = Embedding.Trainer (Embedding.base_model self)
                 (Embedding.output_dir self) (Some (Embedding.base_model self))).
Proof.
  destruct (embedding_train_cases w self path epochs batch_size warmup_steps)
    as (trace & r & n & H1 & H2 & H3 & _).
  exists trace, r, n. repeat split; try assumption; apply (H3 self'); assumption.
Qed.

(** X16.  The data loader of the embedding trainer is built from the
    examples prepared from the training file and from nothing else: whenever
    [DataLoader] is called, the file is there, it decoded, [prepare_examples]
    returned, and the loader receives as many examples as it returned. *)
Theorem embedding_train_loader_from_file (w : world) (self : Embedding.trainer)
    (path : string) (epochs batch_size warmup_steps : Z) (n : nat) :
  Lib (DataLoader_new n batch_size) ∈
    (Embedding.train w self path epochs batch_size warmup_steps []).1 ->
  exists text data examples log1 log2,
    files w !! path = Some text /\
    json_loads w (universal_newlines text) = Some data /\
    Embedding.prepare_examples data log1 = (log2, Ok examples) /\
    n = length examples.
Proof.
  destruct (embedding_train_cases w self path epochs batch_size warmup_steps)
    as (trace & r & n0 & H1 & _ & _ & H4).
  rewrite H1. simpl. intros H. apply elem_lib_calls in H. exact (H4 n H).
Qed.

Lemma embedding_train_loader_from_file_witness :
  exists text data examples log1 log2,
    files Scenario.demo !! Scenario.pairs_path = Some text /\
    json_loads Scenario.demo (universal_newlines text) = Some data /\
    Embedding.prepare_examples data log1 = (log2, Ok examples) /\
    1 = length examples.
Proof.
  apply (embedding_train_loader_from_file Scenario.demo Embedding.init
           Scenario.pairs_path 10 16 100 1).
  vm_compute. apply list_elem_of_In. simpl. tauto.
Defined.



(** ** The tester and the script *)

Section Tester.

Import PyStr Regime.

Lemma marks_app (l k : list event) : marks (l ++ k) = marks l ++ marks k.
Proof. apply omap_app. Qed.

(** One test, whatever the libraries do: it calls nothing but the tokenizer
    and the generation. *)
Lemma run_test_cases (w : world) (i : nat) (test : test_case) (log : list event) :
  exists added r,
    run_test w i test log = (log ++ added, r) /\
    (forall c, c ∈ lib_calls added ->
               exists p, c = Tokenizer_call p \/ c = Model_generate p) /\
    (lib_ok w (Tokenizer_call (test_prompt test)) = true ->
     lib_ok w (Model_generate (test_prompt test)) = true ->
     r = Ok tt /\
     marks added =
     [passed (predict (generated w i (test_prompt test))) (expected test)]).
Proof.
  unfold run_test. run_steps.
  destruct (lib_ok w (Tokenizer_call _)) eqn:H1; simpl;
    [destruct (lib_ok w (Model_generate _)) eqn:H2; simpl|];
    unfold emit; repeat (rewrite <- app_assoc; simpl);
    eexists _, _; (split; [reflexivity|]); split;
    try (intros c H; cbn in H;
         repeat (apply elem_of_cons in H as [->|H]; [eexists; eauto|]);
         apply elem_of_nil in H; contradiction);
    intros; try discriminate; split; reflexivity.
Qed.

Lemma run_tests_cases (w : world) (tests : list test_case) (i : nat)
    (log : list event) :
  exists added r,
    run_tests w i tests log = (log ++ added, r) /\
    (forall c, c ∈ lib_calls added ->
               exists p, c = Tokenizer_call p \/ c = Model_generate p) /\
    ((forall c, lib_ok w c = true) ->
     r = Ok tt /\
     marks added =
     imap (fun k test =>
             passed (predict (generated w (i + k) (test_prompt test))) (expected test))
          tests).
Proof.
  revert i log. induction tests as [|test tests IH]; intros i log.
  - exists [], (Ok tt). split; [simpl; rewrite app_nil_r; reflexivity|].
    split; [intros c H; inversion H|]. intros _. split; reflexivity.
  - cbn [run_tests]. unfold mbind, run_bind.
    destruct (run_test_cases w i test log) as (a1 & r1 & E1 & C1 & M1).
    rewrite E1. destruct r1 as [[]|e].
    + destruct (IH (S i) (log ++ a1)) as (a2 & r2 & E2 & C2 & M2).
      rewrite E2, <- app_assoc. exists (a1 ++ a2), r2.
      split; [reflexivity|]. split.
      * intros c H. rewrite lib_calls_app in H.
        apply elem_of_app in H as [H|H]; [apply C1, H|apply C2, H].
      * intros Hok. destruct (M1 (Hok _) (Hok _)) as [_ Hm1].
        destruct (M2 Hok) as [-> Hm2]. split; [reflexivity|].
        rewrite marks_app, Hm1, Hm2. simpl. rewrite Nat.add_0_r. f_equal.
        apply imap_ext. intros k t _. simpl.
        replace (i + S k) with (S (i + k)) by lia. reflexivity.
    + exists a1, (Raise e). split; [reflexivity|]. split; [exact C1|].
      intros Hok. destruct (M1 (Hok _) (Hok _)) as [H _]. discriminate H.
Qed.



(** The tester, from any trace on. *)
Lemma test_classifier_cases (w : world) (self : trainer) (log : list event) :
  exists added r,
    test_classifier w self log = (log ++ added, r) /\
    (forall m, model self = Some m ->
       forall c, c ∈ lib_calls added ->
                 exists p, c = Tokenizer_call p \/ c = Model_generate p) /\
    (model self = None ->
     exists rest,
       lib_calls added =
       AutoModelForCausalLM_from_pretrained (output_dir self) :: rest /\
       (lib_ok w (AutoModelForCausalLM_from_pretrained (output_dir self)) = false ->
        r = Raise (LibraryError (AutoModelForCausalLM_from_pretrained (output_dir self)))
        /\ rest = [] /\ marks added = [])).
Proof.
  unfold test_classifier. remember test_cases as tests eqn:Et. run_steps.
  destruct (model self) as [m|] eqn:Hm; run_steps.
  - match goal with
    | |- context [run_tests w 0 tests ?l] =>
        destruct (run_tests_cases w tests 0 l) as (added & r & E & C & _)
    end.
    rewrite E, <- !app_assoc. simpl.
    destruct r as [[]|e]; eexists _, _; (split; [reflexivity|]);
      (split; [|discriminate]); intros m' _ c H; apply C;
      calls_in H; exact H.
  - destruct (lib_ok w (AutoModelForCausalLM_from_pretrained _)) eqn:H1; simpl.
    + destruct (lib_ok w (AutoTokenizer_from_pretrained _)) eqn:H2; simpl.
      * match goal with
        | |- context [run_tests w 0 tests ?l] =>
            destruct (run_tests_cases w tests 0 l) as (added & r & E & C & _)
        end.
        rewrite E, <- !app_assoc. simpl.
        destruct r as [[]|e]; eexists _, _; (split; [reflexivity|]);
          (split; [discriminate|]); intros _; eexists;
          (split; [calls_goal; reflexivity|discriminate]).
      * eexists _, _. split; [rewrite <- !app_assoc; reflexivity|].
        split; [discriminate|]. intros _. eexists.
        split; [calls_goal; reflexivity|discriminate].
    + eexists _, _. split; [rewrite <- !app_assoc; reflexivity|].
      split; [discriminate|]. intros _. eexists.
      split; [calls_goal; reflexivity|]. intros _. repeat split; reflexivity.
Qed.

(** X18.  The tester loads a model only when the object holds none, and then
    from the output directory, before anything else: with a model in memory
    it calls nothing but the tokenizer and the generation; without one, its
    first library call loads the checkpoint of [output_dir], and when that
    fails (no training has been saved there) the run ends with that failure
    and no test is run. *)
Theorem tester_loads_only_without_model (w : world) (self : trainer) :
  (forall m, model self = Some m ->
     forall c, Lib c ∈ (test_classifier w self []).1 ->
               exists p, c = Tokenizer_call p \/ c = Model_generate p) /\
  (model self = None ->
   exists rest,
     lib_calls (test_classifier w self []).1 =
     AutoModelForCausalLM_from_pretrained (output_dir self) :: rest /\
     (lib_ok w (AutoModelForCausalLM_from_pretrained (output_dir self)) = false ->
      (test_classifier w self []).2 =
      Raise (LibraryError (AutoModelForCausalLM_from_pretrained (output_dir self)))
      /\ marks (test_classifier w self []).1 = [])).
Proof.
  destruct (test_classifier_cases w self []) as (added & r & E & H1 & H2).
  rewrite E. simpl. split.
  - intros m Hm c Hc. apply (H1 m Hm). apply elem_lib_calls, Hc.
  - intros Hn. destruct (H2 Hn) as (rest & Hc & Hf). exists rest.
    split; [exact Hc|]. intros Hbad. destruct (Hf Hbad) as (-> & _ & Hm).
    split; [reflexivity|exact Hm].
Qed.

Lemma tester_loads_only_without_model_witness :
  (forall c,
      Lib c ∈ (test_classifier Scenario.demo
                 (Trainer "m" "out" (Some "m") (Some "m")) []).1 ->
      exists p, c = Tokenizer_call p \/ c = Model_generate p) /\
  (exists rest,
      lib_calls (test_classifier
                   (World ∅ Json.loads Scenario.str_atom (fun _ => false)
                          (fun _ prompt => prompt))
                   Regime.init []).1 =
      AutoModelForCausalLM_from_pretrained (output_dir Regime.init) :: rest /\
      (test_classifier
         (World ∅ Json.loads Scenario.str_atom (fun _ => false)
                (fun _ prompt => prompt))
         Regime.init []).2 =
      Raise (LibraryError (AutoModelForCausalLM_from_pretrained (output_dir Regime.init))) /\
      marks (test_classifier
               (World ∅ Json.loads Scenario.str_atom (fun _ => false)
                      (fun _ prompt => prompt))
               Regime.init []).1 = []).
Proof.
  split.
  - apply (proj1 (tester_loads_only_without_model Scenario.demo
                    (Trainer "m" "out" (Some "m") (Some "m"))) "m").
    reflexivity.
  - destruct (proj2 (tester_loads_only_without_model
                       (World ∅ Json.loads Scenario.str_atom (fun _ => false)
                              (fun _ prompt => prompt))
                       Regime.init) eq_refl) as (rest & Hc & Hf).
    exists rest. split; [exact Hc|]. apply Hf. reflexivity.
Defined.

End Tester.

(** ** The script as a whole *)

Section Script.

Import PyStr.

Lemma regime_calls_load_model (self : Regime.trainer) (texts : list string)
    (epochs batch_size : Z) (name : string) :
  AutoModelForCausalLM_from_pretrained name ∈ regime_calls self texts epochs batch_size ->
  name = Regime.model_name self.
Proof.
  unfold regime_calls. intros H.
  apply elem_of_cons in H as [H|H]; [injection H as ->; reflexivity|].
  not_called H.
Qed.

(** X19.  In the script, training comes first and decides: when [train]
    raises, the script ends there, with the trace and the exception of
    [train], and the tester adds nothing; and in no run does the script load
    a model from anywhere but the base model name, so the tester that follows
    a training works on the model in memory and never reloads the saved
    checkpoint. *)
Theorem main_trains_then_tests (w : world) :
  (forall trace e,
      Regime.train w Regime.init "./training-data/regime/regime_training.jsonl" 3 2 [] =
      (trace, Raise e) ->
      RegimeScript.main w [] = (trace, Raise e)) /\
  (forall name,
      Lib (AutoModelForCausalLM_from_pretrained name) ∈ (RegimeScript.main w []).1 ->
      name = "mistralai/Mistral-7B-Instruct-v0.2").
Proof.
  unfold RegimeScript.main, mbind, run_bind.
  destruct (regime_train_cases w Regime.init
              "./training-data/regime/regime_training.jsonl" 3 2)
    as (trace & r & texts & E & Hpre & Hok & _ & _).
  rewrite E. split.
  - intros trace' e H. injection H as <- ->. reflexivity.
  - assert (forall name, Lib (AutoModelForCausalLM_from_pretrained name) ∈ trace ->
                         name = "mistralai/Mistral-7B-Instruct-v0.2") as Htrain.
    { intros name H. apply elem_lib_calls in H.
      destruct Hpre as [k Hk].
      apply (regime_calls_load_model Regime.init texts 3 2 name).
      rewrite Hk. apply elem_of_app. left. exact H. }
    intros name. destruct r as [self'|e]; [|apply Htrain].
    destruct (Hok self' eq_refl) as (_ & _ & ->).
    match goal with
    | |- context [Regime.test_classifier w ?s trace] =>
        destruct (test_classifier_cases w s trace) as (added & r & Et & Hc & _)
    end.
    rewrite Et. simpl. intros H. apply elem_of_app in H as [H|H]; [apply Htrain, H|].
    apply elem_lib_calls in H.
    destruct (Hc _ eq_refl _ H) as [p [Hp|Hp]]; discriminate Hp.
Qed.

Lemma main_trains_then_tests_witness :
  RegimeScript.main Scenario.demo [] =
  ([Enter "train"; Print "Loading model: mistralai/Mistral-7B-Instruct-v0.2";
    Lib (AutoModelForCausalLM_from_pretrained "mistralai/Mistral-7B-Instruct-v0.2");
    Lib (AutoTokenizer_from_pretrained "mistralai/Mistral-7B-Instruct-v0.2");
    Enter "load_training_data";
    Open "./training-data/regime/regime_training.jsonl"],
   Raise (FileNotFoundError "./training-data/regime/regime_training.jsonl")) /\
  "mistralai/Mistral-7B-Instruct-v0.2" = "mistralai/Mistral-7B-Instruct-v0.2".
Proof.
  split.
  - apply (proj1 (main_trains_then_tests Scenario.demo)).
    vm_compute. reflexivity.
  - apply (proj2 (main_trains_then_tests Scenario.demo)
             "mistralai/Mistral-7B-Instruct-v0.2").
    vm_compute. apply list_elem_of_In. simpl. tauto.
Defined.

Lemma Forall2_transfer {A B : Type} (P : A -> Prop) (R : A -> B -> Prop)
    (Q : B -> Prop) (l : list A) (k : list B) :
  (forall a b, P a -> R a b -> Q b) ->
  Forall P l -> Forall2 R l k -> Forall Q k.
Proof.
  intros H HP HR. induction HR as [|a b l k Hab _ IH]; [constructor|].
  apply Forall_cons in HP as [Ha HP]. constructor; [eapply H; eassumption|apply IH, HP].
Qed.

(** X20.  A complete training run of the regime script: when the file is
    there, every line of it decodes to a record that can be rendered and no
    library call fails, [train] returns; it has made the whole sequence of
    library calls, the dataset holding one rendered prompt per line of the
    file, in order, and the trainer it returns holds the model. *)
Theorem regime_train_succeeds (w : world) (self : Regime.trainer)
    (path text : string) (epochs batch_size : Z) :
  files w !! path = Some text ->
  Forall (fun line => exists record prompt,
                        json_loads w line = Some record /\
                        Regime.format_prompt w record = Ok prompt)
         (readlines (universal_newlines text)) ->
  (forall c, lib_ok w c = true) ->
  exists trace self' texts,
    Regime.train w self path epochs batch_size [] = (trace, Ok self') /\
    lib_calls trace = regime_calls self texts epochs batch_size /\
    Forall2 (fun line prompt => exists record,
                                  json_loads w line = Some record /\
                                  Regime.format_prompt w record = Ok prompt)
            (readlines (universal_newlines text)) texts /\
    Regime.model self' = Some (Regime.model_name self).
Proof.
  intros Hf Hlines Hok.
  destruct (traverse_total (Regime.decode_line w) (readlines (universal_newlines text)))
    as [data Hd].
  { eapply Forall_impl; [exact Hlines|]. intros line (record & prompt & Hr & _).
    exists record. apply decode_line_ok, Hr. }
  pose proof (traverse_ok _ _ _ Hd) as Hd2.
  assert (Forall (fun ex => exists t, Regime.format_prompt w ex = Ok t) data) as Hrender.
  { eapply Forall2_transfer; [|exact Hlines|exact Hd2].
    intros line record (record' & prompt & Hr & Hp) Hdec.
    apply decode_line_ok in Hdec. exists prompt. congruence. }
  destruct (traverse_total _ _ Hrender) as [texts Ht].
  pose proof (traverse_ok _ _ _ Ht) as Ht2.
  destruct (regime_train_cases w self path epochs batch_size)
    as (trace & r & texts0 & E & _ & Hfull & _ & _).
  assert (exists self', r = Ok self' /\
            lib_calls trace = regime_calls self texts epochs batch_size) as (self' & -> & Hc).
  { revert E. unfold Regime.train, Regime.tokenize_dataset. run_steps.
    rewrite !Hok. simpl. rewrite (regime_loader_run w path text _ Hf), Hd.
    match goal with
    | |- context [Regime.prepare_dataset w data ?log] =>
        destruct (prepare_dataset_run w data log) as (k & _ & Hp & _ & _)
    end.
    rewrite Hp, Ht. repeat (rewrite Hok; simpl).
    intros H. injection H as <- <-. eexists. split; [reflexivity|].
    assert (lib_calls (replicate k (Enter "format_prompt")) = []) as Hrep
      by apply lib_calls_enter.
    calls_goal. reflexivity. }
  destruct (Hfull self' eq_refl) as (_ & _ & ->).
  exists trace. eexists. exists texts.
  split; [exact E|]. split; [exact Hc|]. split; [|reflexivity].
  clear - Hd2 Ht2. revert texts Ht2.
  induction Hd2 as [|line record lines data Hl _ IH]; intros texts Ht2.
  - apply Forall2_nil_inv_l in Ht2 as ->. constructor.
  - apply Forall2_cons_inv_l in Ht2 as (prompt & texts' & Hp & Ht' & ->).
    constructor; [|apply IH, Ht'].
    exists record. split; [apply decode_line_ok, Hl|exact Hp].
Qed.

Lemma regime_train_succeeds_witness :
  exists trace self' texts,
    Regime.train Scenario.demo Regime.init Scenario.regime_path 3 2 [] = (trace, Ok self') /\
    lib_calls trace = regime_calls Regime.init texts 3 2 /\
    Forall2 (fun line prompt => exists record,
                                  Json.loads line = Some record /\
                                  Regime.format_prompt Scenario.demo record = Ok prompt)
            [Scenario.regime_line +:+ nl; Scenario.second_line +:+ nl] texts /\
    Regime.model self' = Some "mistralai/Mistral-7B-Instruct-v0.2".
Proof.
  apply (regime_train_succeeds Scenario.demo Regime.init Scenario.regime_path
           (Scenario.regime_line +:+ nl +:+ Scenario.second_line +:+ nl) 3 2).
  - reflexivity.
  - repeat constructor; vm_compute; eexists _, _; split; reflexivity.
  - intros c. reflexivity.
Defined.

(** X21.  A complete training run of the embedding script: when the file is
    there and decodes to an array of records that each have the three fields,
    and no library call fails, [train] returns; the data loader has received
    as many examples as the array has records, the fit has received the
    epochs, warm-up steps and output directory passed, and the trainer it
    returns holds the model. *)
Theorem embedding_train_succeeds (w : world) (self : Embedding.trainer)
    (path text : string) (items : list json) (epochs batch_size warmup_steps : Z) :
  files w !! path = Some text ->
  json_loads w (universal_newlines text) = Some (JList items) ->
  Forall (fun item => exists a p n, has_triple item a p n) items ->
  (forall c, lib_ok w c = true) ->
  exists trace self',
    Embedding.train w self path epochs batch_size warmup_steps [] = (trace, Ok self') /\
    lib_calls trace =
    embedding_calls self (length items) epochs batch_size warmup_steps /\
    Embedding.model self' = Some (Embedding.base_model self).
Proof.
  intros Hf Hj Hitems Hok.
  destruct (traverse_total Embedding.make_example items) as [examples Hex].
  { eapply Forall_impl; [exact Hitems|]. intros item (a & p & n & H).
    eexists. apply make_example_triple, H. }
  pose proof (Forall2_length _ _ _ (traverse_ok _ _ _ Hex)) as Hlen.
  unfold Embedding.train. run_steps. rewrite !Hok. simpl.
  rewrite (embedding_loader_run w path text _ Hf), Hj.
  rewrite prepare_examples_run, Hex.
  repeat (rewrite Hok; simpl).
  eexists _, _. split; [reflexivity|]. split; [|reflexivity].
  calls_goal. rewrite Hlen. reflexivity.
Qed.

Lemma embedding_train_succeeds_witness :
  exists trace self',
    Embedding.train Scenario.demo Embedding.init Scenario.pairs_path 10 16 100 [] =
    (trace, Ok self') /\
    lib_calls trace = embedding_calls Embedding.init 1 10 16 100 /\
    Embedding.model self' = Some "all-MiniLM-L6-v2".
Proof.
  apply (embedding_train_succeeds Scenario.demo Embedding.init Scenario.pairs_path
           Scenario.embedding_text [Scenario.embedding_record] 10 16 100).
  - reflexivity.
  - vm_compute. reflexivity.
  - repeat constructor.
    exists (JStr "BTC surge"), (JStr "Bitcoin rally"), (JStr "ETH crash").
    eexists. repeat split; reflexivity.
  - intros c. reflexivity.
Defined.

End Script.

(** ** The similarity report *)

Section Report.

Import PyStr EmbeddingTest.

Lemma row_filter (entry : nat -> nat -> string) (i : nat) (js : list nat) :
  row entry i js = versus entry i <$> filter (fun j => j <> i) js.
Proof.
  induction js as [|j js IH]; [reflexivity|].
  simpl. destruct (Nat.eqb_spec i j) as [->|Hne].
  - rewrite filter_cons_False by (intros H; apply H; reflexivity). exact IH.
  - rewrite filter_cons_True by congruence. simpl. rewrite IH. reflexivity.
Qed.

Lemma row_seq_length (entry : nat -> nat -> string) (i a m : nat) :
  length (row entry i (seq a m)) =
  if decide (a <= i < a + m) then m - 1 else m.
Proof.
  revert a. induction m as [|m IH]; intros a.
  - simpl. destruct (decide _); [lia|reflexivity].
  - simpl. destruct (Nat.eqb_spec i a) as [->|Hne].
    + rewrite IH. repeat destruct (decide _); lia.
    + simpl. rewrite IH. repeat destruct (decide _); lia.
Qed.

Lemma rows_length (entry : nat -> nat -> string) (n i : nat) (sentences : list string) :
  i + length sentences <= n ->
  length (rows entry n i sentences) = length sentences * n.
Proof.
  revert i. induction sentences as [|sent rest IH]; intros i Hi; [reflexivity|].
  simpl in Hi. cbn [rows length]. rewrite length_app, row_seq_length, IH by lia.
  destruct (decide _); simpl; lia.
Qed.

(** X22.  For any list of n sentences the similarity report has n * n + 2
    lines: two titles and, for each sentence, its header and one line for
    each of the other n - 1 sentences, in the order of their indices; no
    sentence is compared with itself. *)
Theorem report_compares_each_pair_once (shape : string)
    (entry : nat -> nat -> string) (sentences : list string) :
  length (report shape entry sentences) =
  length sentences * length sentences + 2 /\
  forall i,
    row entry i (seq 0 (length sentences)) =
    versus entry i <$> filter (fun j => j <> i) (seq 0 (length sentences)).
Proof.
  split; [|intros i; apply row_filter].
  unfold report. rewrite length_app, rows_length by lia. simpl. lia.
Qed.

Lemma substring_short (n : nat) (s : string) :
  String.length s <= n -> String.substring 0 n s = s.
Proof.
  revert n. induction s as [|c s IH]; intros [|n] H; simpl in *;
    try reflexivity; try lia.
  rewrite IH by lia. reflexivity.
Qed.

Lemma substring_length (n : nat) (s : string) :
  String.length (String.substring 0 n s) = Nat.min n (String.length s).
Proof.
  revert n. induction s as [|c s IH]; intros [|n]; simpl; try reflexivity.
  rewrite IH. reflexivity.
Qed.

Lemma substring_prefix (n : nat) (s : string) :
  String.prefix (String.substring 0 n s) s = true.
Proof.
  revert n. induction s as [|c s IH]; intros [|n]; try reflexivity.
  change (String.substring 0 (S n) (String c s))
    with (String c (String.substring 0 n s)).
  apply prefix_cons. split; [reflexivity|apply IH].
Qed.

(** X23.  The header of a sentence shows its first 50 characters at most,
    always followed by three dots: what is shown is an initial part of the
    sentence of length min(50, length), so a sentence of at most 50
    characters is shown whole, dots included. *)
Theorem header_shows_fifty_characters (i : nat) (sent : string) :
  exists shown,
    header i sent = nl +:+ pretty i +:+ ": " +:+ shown +:+ "..." /\
    String.prefix shown sent = true /\
    String.length shown = Nat.min 50 (String.length sent) /\
    (String.length sent <= 50 -> shown = sent).
Proof.
  exists (String.substring 0 50 sent). split; [reflexivity|].
  split; [apply substring_prefix|]. split; [apply substring_length|].
  apply substring_short.
Qed.

Lemma header_shows_fifty_characters_witness :
  exists shown,
    header 0 "BTCUSDT bullish breakout with high volume" =
    nl +:+ pretty 0 +:+ ": " +:+ shown +:+ "..." /\
    String.prefix shown "BTCUSDT bullish breakout with high volume" = true /\
    String.length shown =
    Nat.min 50 (String.length "BTCUSDT bullish breakout with high volume") /\
    shown = "BTCUSDT bullish breakout with high volume".
Proof.
  destruct (header_shows_fifty_characters 0 "BTCUSDT bullish breakout with high volume")
    as (shown & H1 & H2 & H3 & H4).
  exists shown. repeat split; try assumption.
  apply H4. vm_compute. repeat constructor.
Defined.

Lemma report_of_the_script (shape : string) (entry : nat -> nat -> string) :
  length (report shape entry test_sentences) = 38.
Proof. reflexivity. Qed.

End Report.

End Protocol.
